(** * data.py: datasets, the length-bucketed batch sampler and the collators

    A shallow embedding of [data.py].  Python integers are [Z], [len] of a
    list or string is a [nat] injected into [Z] where it meets a
    configuration value, lists are [list], the insertion-ordered dict
    [bins] is an association list, pickled archives live in a finite map
    from paths to their (already deserialised) contents, and exceptions are
    the [Raise] branch of [result].  The process-wide generator behind
    [random.shuffle] is threaded explicitly as a stream of draws. *)

From Stdlib Require Import ZArith String.
From stdpp Require Import base list strings gmap.

Open Scope Z_scope.

(** ** Exceptions *)

Inductive exn : Type :=
  | ValueError (msg : string)
  | AssertionError (msg : string)
  | FileNotFoundError (file : string)
  | KeyError (key : string)
  | IndexError (msg : string)
  | TypeError (msg : string).

Inductive result (A : Type) : Type :=
  | Ok (a : A)
  | Raise (e : exn).
Arguments Ok {A} a.
Arguments Raise {A} e.

Definition result_bind {A B} (r : result A) (k : A -> result B) : result B :=
  match r with
  | Ok a => k a
  | Raise e => Raise e
  end.

(** ** Python built-ins used by the module *)

Module Py.

(** [len(range(start, stop, step))] as CPython computes it, [step <> 0]. *)
Definition range_len (start stop step : Z) : Z :=
  if 0 <? step then
    if start <? stop then (stop - start - 1) / step + 1 else 0
  else
    if stop <? start then (start - stop - 1) / (- step) + 1 else 0.

Fixpoint range_from (n : nat) (start step : Z) : list Z :=
  match n with
  | O => []
  | S n' => start :: range_from n' (start + step) step
  end.

(** [range(start, stop, step)]; a zero step is a [ValueError]. *)
Definition range (start stop step : Z) : result (list Z) :=
  if step =? 0 then Raise (ValueError "range() arg 3 must not be zero"%string)
  else Ok (range_from (Z.to_nat (range_len start stop step)) start step).

(** Clamping of one slice bound against a list of length [n]. *)
Definition slice_bound (n : nat) (i : Z) : nat :=
  if i <? 0 then Z.to_nat (Z.max 0 (i + Z.of_nat n))
  else Nat.min (Z.to_nat i) n.

(** [x[lo:hi]]. *)
Definition slice {A} (x : list A) (lo hi : Z) : list A :=
  let l := slice_bound (length x) lo in
  let h := slice_bound (length x) hi in
  take (h - l) (drop l x).

Local Open Scope string_scope.

(** [os.path.join(a, b)] on POSIX paths. *)
Definition path_join (a b : string) : string :=
  if String.prefix "/" b then b
  else if bool_decide (a = "") then b
  else if String.eqb (String.substring (String.length a - 1) 1 a) "/"
       then a +:+ b
       else a +:+ "/" +:+ b.

End Py.

(** ** The [random] module: a generator as a stream of draws *)

Module Random.

Definition rng : Type := list nat.

(** [_randbelow(n)], [n > 0]: the next draw reduced into [0, n); a stream
    that has run out keeps drawing 0. *)
Definition randbelow (n : nat) (g : rng) : nat * rng :=
  match g with
  | [] => (0%nat, [])
  | d :: g' => ((d mod n)%nat, g')
  end.

(** [x[i], x[j] = x[j], x[i]] for in-range positions. *)
Definition swap {A} (i j : nat) (x : list A) : list A :=
  match x !! i, x !! j with
  | Some a, Some b => <[j:=a]> (<[i:=b]> x)
  | _, _ => x
  end.

(** The loop [for i in reversed(range(1, len(x)))] of [random.shuffle],
    entered at position [i]. *)
Fixpoint shuffle_from {A} (i : nat) (x : list A) (g : rng) : list A * rng :=
  match i with
  | O => (x, g)
  | S i' =>
      let '(j, g') := randbelow (S i) g in
      shuffle_from i' (swap i j x) g'
  end.

Definition shuffle {A} (x : list A) (g : rng) : list A * rng :=
  shuffle_from (length x - 1) x g.

End Random.

(** ** Records of the structural datasets *)

Section Items.

(** The coordinate payload is opaque to this module. *)
Context {Coords : Type}.

(** A record of the [cath]/[pdb] archives: [{"coords": ..., "seq": ...}]. *)
Record item : Type := Item { coords : Coords; seq : string }.

Definition seq_len (it : item) : nat := String.length (seq it).

End Items.
Arguments item Coords : clear implicits.

(** The fields of [args] read by the structural dataset and its sampler. *)
Record Namespace : Type := {
  data_dir : string;
  dataset_name : string;
  max_seq_len : option Z;
  min_seq_len : Z;
  batch_size : Z;
  sampler_bin_size : Z
}.

(** ** ESMBatchSampler *)

Module ESMBatchSampler.

(** The dict [bins], in insertion order. *)
Abbreviation bins_t := (list (Z * list nat)).

(** The inner [for bin_idx in list(bins.keys())] loop with its [break]. *)
Fixpoint place (bin_size : Z) (data_idx : nat) (data_len : Z) (bins : bins_t)
  : bins_t :=
  match bins with
  | [] => []
  | (bin_idx, items) :: rest =>
      if (data_len >=? bin_idx) && (data_len <? bin_idx + bin_size)
      then (bin_idx, items ++ [data_idx]) :: rest
      else (bin_idx, items) :: place bin_size data_idx data_len rest
  end.

(** The outer [for data_idx, data_len in enumerate(data_lens)] loop. *)
Fixpoint fill_bins (bin_size : Z) (data_idx : nat) (data_lens : list nat)
    (bins : bins_t) : bins_t :=
  match data_lens with
  | [] => bins
  | data_len :: rest =>
      fill_bins bin_size (S data_idx) rest
        (place bin_size data_idx (Z.of_nat data_len) bins)
  end.

(** The final loop shuffling every bin in place. *)
Fixpoint shuffle_bins (bins : bins_t) (g : Random.rng) : bins_t * Random.rng :=
  match bins with
  | [] => ([], g)
  | (bin_idx, items) :: rest =>
      let '(items', g1) := Random.shuffle items g in
      let '(rest', g2) := shuffle_bins rest g1 in
      ((bin_idx, items') :: rest', g2)
  end.

(** The bins before the per-bin shuffle. *)
Definition unshuffled_bins (data_lens : list nat)
    (min_len max_len bin_size : Z) : result bins_t :=
  result_bind (Py.range min_len max_len bin_size) (fun starts =>
    Ok (fill_bins bin_size 0%nat data_lens (map (fun i => (i, [])) starts))).

Definition create_bins {Coords} (data : list (item Coords))
    (min_len max_len bin_size : Z) (g : Random.rng)
  : result (bins_t * Random.rng) :=
  result_bind
    (unshuffled_bins (map seq_len data) min_len max_len bin_size)
    (fun bins => Ok (shuffle_bins bins g)).

(** [bins_flattened]. *)
Definition flatten (bins : bins_t) : list nat := concat (map snd bins).

(** [all_batches] before the batch-level shuffle. *)
Definition chunks (bins_flattened : list nat) (batch_size : Z)
  : result (list (list nat)) :=
  result_bind
    (Py.range 0 (Z.of_nat (length bins_flattened)) batch_size)
    (fun starts =>
       Ok (map (fun i => Py.slice bins_flattened i (i + batch_size)) starts)).

Definition create_batches (bins : bins_t) (batch_size : Z) (g : Random.rng)
  : result (list (list nat) * Random.rng) :=
  result_bind (chunks (flatten bins) batch_size)
    (fun all_batches => Ok (Random.shuffle all_batches g)).

(** [__init__]: the sampler's state after construction. *)
Record t : Type := {
  drop_last : bool;
  bins : bins_t;
  batches : list (list nat)
}.

Definition init {Coords} (data : list (item Coords)) (args : Namespace)
    (g : Random.rng) : result (t * Random.rng) :=
  match max_seq_len args with
  | None =>
      Raise (TypeError "NoneType cannot be interpreted as an integer"%string)
  | Some max_len =>
      result_bind
        (create_bins data (min_seq_len args) max_len (sampler_bin_size args) g)
        (fun '(bs, g1) =>
           result_bind (create_batches bs (batch_size args) g1)
             (fun '(all_batches, g2) =>
                Ok ({| drop_last := true; bins := bs;
                       batches := all_batches |}, g2)))
  end.

End ESMBatchSampler.

(** ** File access: archives read through [open] + [pickle.load] *)

Module IO.

Inductive event : Type :=
  | OpenRead (file : string).

(** A computation over a file system whose archives hold values of type
    [D]; it yields the files it touched, in order, and its outcome. *)
Definition t (D A : Type) : Type :=
  gmap string D -> list event * result A.

Definition ret {D A} (a : A) : t D A := fun _ => ([], Ok a).

Definition raise {D A} (e : exn) : t D A := fun _ => ([], Raise e).

Definition bind {D A B} (m : t D A) (k : A -> t D B) : t D B :=
  fun fs =>
    match m fs with
    | (tr, Ok a) => let '(tr', r) := k a fs in (tr ++ tr', r)
    | (tr, Raise e) => (tr, Raise e)
    end.

(** [assert cond, msg]. *)
Definition py_assert {D} (cond : bool) (msg : string) : t D unit :=
  if cond then ret tt else raise (AssertionError msg).

(** [with open(file, "rb") as f: pickle.load(f)]. *)
Definition load_pickle {D} (file : string) : t D D :=
  fun fs =>
    ([OpenRead file],
     match fs !! file with
     | Some d => Ok d
     | None => Raise (FileNotFoundError file)
     end).

End IO.

#[global] Instance io_ret {D} : MRet (IO.t D) := fun A => @IO.ret D A.
#[global] Instance io_bind {D} : MBind (IO.t D) := fun A B k m => IO.bind m k.

(** ** ESMDataset *)

Module ESMDataset.
Section WithCoords.
Context {Coords : Type}.
Local Open Scope string_scope.
Local Open Scope Z_scope.

Record t : Type := { data : list (item Coords) }.

(** The test of the [if] inside [filter_data]. *)
Definition keeps (max_len min_len : Z) (it : item Coords) : bool :=
  (Z.of_nat (seq_len it) <=? max_len) && (Z.of_nat (seq_len it) >=? min_len).

(** The loop of [filter_data], appending to the fresh list [data]. *)
Fixpoint filter_loop (max_len min_len : Z) (items acc : list (item Coords))
  : list (item Coords) :=
  match items with
  | [] => acc
  | it :: rest =>
      filter_loop max_len min_len rest
        (if keeps max_len min_len it then app acc [it] else acc)
  end.

Definition filter_data (self : t) (max_len min_len : Z) : t :=
  {| data := filter_loop max_len min_len (data self) [] |}.

Definition init (split : string) (args : Namespace)
  : IO.t (list (item Coords)) t :=
  IO.py_assert (bool_decide (dataset_name args ∈ ["cath"; "pdb"]))
    "Invalid Dataset Name" ;;
  d ← IO.load_pickle
         (Py.path_join (data_dir args)
            (dataset_name args +:+ "/" +:+ split +:+ ".pkl"));
  let self := {| data := d |} in
  IO.ret (match max_seq_len args with
          | Some max_len => filter_data self max_len (min_seq_len args)
          | None => self
          end).

Definition len (self : t) : nat := length (data self).

End WithCoords.
Arguments t Coords : clear implicits.
End ESMDataset.

(** ** Label-prediction datasets *)

(** Field values of the records of the label-prediction archives. *)
Inductive pyval : Type :=
  | VStr (s : string)
  | VInt (z : Z).

(** [d[key]] on a dict with string keys. *)
Definition dict_get (d : gmap string pyval) (key : string) : result pyval :=
  match d !! key with
  | Some v => Ok v
  | None => Raise (KeyError key)
  end.

(** [x[index]] on a list, negative positions counting from the end. *)
Definition list_get {A} (x : list A) (index : Z) : result A :=
  let i := if index <? 0 then index + Z.of_nat (length x) else index in
  if i <? 0 then Raise (IndexError "list index out of range"%string)
  else match x !! Z.to_nat i with
       | Some a => Ok a
       | None => Raise (IndexError "list index out of range"%string)
       end.

Module RemoteHomologyDataset.
Local Open Scope string_scope.

Record t : Type := {
  data : list (gmap string pyval);
  label_to_predict : string
}.

Definition splits : list string :=
  ["train"; "val"; "test_family_holdout"; "test_superfamily_holdout";
   "test_fold_holdout"].

Definition labels : list string := ["family"; "superfamily"; "fold"; "class"].

Definition init (split label data_dir : string)
  : IO.t (list (gmap string pyval)) t :=
  IO.py_assert (bool_decide (split ∈ splits)) ("Invalid Split: " +:+ split) ;;
  d ← IO.load_pickle
         (Py.path_join data_dir ("remote_homology/" +:+ split +:+ ".pkl"));
  IO.py_assert (bool_decide (label ∈ labels))
    ("Invalid label: " +:+ label +:+ " to predict") ;;
  IO.ret {| data := d; label_to_predict := label +:+ "_label" |}.

Definition len (self : t) : nat := length (data self).

Definition getitem (self : t) (index : Z) : result (pyval * pyval) :=
  result_bind (list_get (data self) index) (fun entry =>
  result_bind (dict_get entry "primary") (fun primary =>
  result_bind (dict_get entry (label_to_predict self)) (fun label =>
  Ok (primary, label)))).

End RemoteHomologyDataset.

Module StabilityDataset.
Local Open Scope string_scope.

Record t : Type := { data : list (gmap string pyval) }.

Definition splits : list string := ["train"; "val"; "test"].

Definition init (split data_dir : string)
  : IO.t (list (gmap string pyval)) t :=
  IO.py_assert (bool_decide (split ∈ splits)) ("Invalid Split: " +:+ split) ;;
  d ← IO.load_pickle
         (Py.path_join data_dir ("stability/" +:+ split +:+ ".pkl"));
  IO.ret {| data := d |}.

End StabilityDataset.

Module FluoroscenceDataset.
Local Open Scope string_scope.

Record t : Type := { data : list (gmap string pyval) }.

Definition splits : list string := ["train"; "val"; "test"].

Definition init (split data_dir : string)
  : IO.t (list (gmap string pyval)) t :=
  IO.py_assert (bool_decide (split ∈ splits)) ("Invalid Split: " +:+ split) ;;
  d ← IO.load_pickle
         (Py.path_join data_dir ("fluoroscence/" +:+ split +:+ ".pkl"));
  IO.ret {| data := d |}.

End FluoroscenceDataset.

(** ** ESMDataLoader.collate_fn *)

Module ESMDataLoader.
Section Collate.
(** Raw payloads and the tensors the two converters return are opaque. *)
Context {Coords Conf Tokens IfTokens CoordT ConfT MaskT : Type}.

(** What [dataset.__getitem__] hands over: [(coords, None, seq)]. *)
Definition sample : Type := Coords * option Conf * string.

(** Calls made to the two external converters, with their argument. *)
Inductive call : Type :=
  | Esm2BatchConverter (inp_seqs : list (string * string))
  | EsmIfBatchConverter (batch : list sample).

Variable esm2_batch_converter :
  list (string * string) -> list string * list string * Tokens.
Variable esm_if_batch_converter :
  list sample -> CoordT * ConfT * list string * IfTokens * MaskT.

Definition collate_fn (batch : list sample)
  : list call * (CoordT * ConfT * list string * Tokens * MaskT) :=
  let inp_seqs := map (fun it : sample => (""%string, it.2)) batch in
  let '(_labels, _strs, tokens) := esm2_batch_converter inp_seqs in
  let '(coords, confidence, strs, _, padding_mask) :=
    esm_if_batch_converter batch in
  ([Esm2BatchConverter inp_seqs; EsmIfBatchConverter batch],
   (coords, confidence, strs, tokens, padding_mask)).

End Collate.
End ESMDataLoader.

(** ** Remaining methods of the sampler and of the structural dataset *)

(** [ESMBatchSampler.__len__]. *)
Definition ESMBatchSampler_len (self : ESMBatchSampler.t) : nat :=
  length (ESMBatchSampler.batches self).

(** [ESMBatchSampler.__iter__]: the batches, in their stored order. *)
Definition ESMBatchSampler_iter (self : ESMBatchSampler.t) : list (list nat) :=
  ESMBatchSampler.batches self.

Section GetItem.
(** [astype(np.float32)] and the array types around it are opaque. *)
Context {Coords Coords32 Conf : Type}.
Variable astype_float32 : Coords -> Coords32.

(** [ESMDataset.__getitem__]: [(coords as float32, None, seq)]. *)
Definition ESMDataset_getitem (self : ESMDataset.t Coords) (idx : Z)
  : result (Coords32 * option Conf * string) :=
  result_bind (list_get (ESMDataset.data self) idx) (fun it =>
    Ok (astype_float32 (coords it), None, seq it)).

End GetItem.

(** ** Collators of the label-prediction modules *)

Module LabelCollate.
Section Collate.
(** Sequences, labels and the tensors returned are opaque. *)
Context {Seq Label Tokens LabelsT : Type}.

Inductive dtype : Type :=
  | torch_long
  | torch_float32.

(** Calls made to [torch.tensor] and to the sequence converter, with their
    arguments. *)
Inductive call : Type :=
  | TorchTensor (values : list Label) (dt : dtype)
  | Esm2BatchConverter (inp_seqs : list (string * Seq)).

Variable esm2_batch_converter :
  list (string * Seq) -> list string * list string * Tokens.
Variable torch_tensor : list Label -> dtype -> LabelsT.

(** The body shared by the three [collate_fn]: the batch items are the
    pairs returned by [__getitem__]. *)
Definition collate (dt : dtype) (batch : list (Seq * Label))
  : list call * (Tokens * LabelsT) :=
  let inp_seqs := map (fun it : Seq * Label => (""%string, it.1)) batch in
  let values := map (fun it : Seq * Label => it.2) batch in
  let class_labels := torch_tensor values dt in
  let '(_labels, _strs, tokens) := esm2_batch_converter inp_seqs in
  ([TorchTensor values dt; Esm2BatchConverter inp_seqs],
   (tokens, class_labels)).

(** [RemoteHomologyLightning.collate_fn]. *)
Definition RemoteHomologyLightning_collate_fn := collate torch_long.

(** [StabilityLightning.collate_fn]. *)
Definition StabilityLightning_collate_fn := collate torch_float32.

(** [FluoroscenceLightning.collate_fn]. *)
Definition FluoroscenceLightning_collate_fn := collate torch_float32.

End Collate.
End LabelCollate.

(** ** ESMDataLightning: [setup] and [teardown] *)

Module ESMDataLightning.
Section WithCoords.
Context {Coords : Type}.
Local Open Scope string_scope.
Local Open Scope Z_scope.

(** An attribute of the module: not assigned yet, [None], or a value. *)
Inductive attr (A : Type) : Type :=
  | Unset
  | PyNone
  | Val (a : A).
Arguments Unset {A}.
Arguments PyNone {A}.
Arguments Val {A} a.

Record t : Type := {
  args : Namespace;
  sampler_enabled : bool;
  train_dataset : attr (ESMDataset.t Coords);
  val_dataset : attr (ESMDataset.t Coords);
  test_dataset : attr (ESMDataset.t Coords);
  train_sampler : attr ESMBatchSampler.t;
  val_sampler : attr ESMBatchSampler.t;
  test_sampler : attr ESMBatchSampler.t
}.

Definition set_train_dataset (v : attr (ESMDataset.t Coords)) (self : t) : t :=
  {| args := args self; sampler_enabled := sampler_enabled self;
     train_dataset := v; val_dataset := val_dataset self;
     test_dataset := test_dataset self; train_sampler := train_sampler self;
     val_sampler := val_sampler self; test_sampler := test_sampler self |}.

Definition set_val_dataset (v : attr (ESMDataset.t Coords)) (self : t) : t :=
  {| args := args self; sampler_enabled := sampler_enabled self;
     train_dataset := train_dataset self; val_dataset := v;
     test_dataset := test_dataset self; train_sampler := train_sampler self;
     val_sampler := val_sampler self; test_sampler := test_sampler self |}.

Definition set_test_dataset (v : attr (ESMDataset.t Coords)) (self : t) : t :=
  {| args := args self; sampler_enabled := sampler_enabled self;
     train_dataset := train_dataset self; val_dataset := val_dataset self;
     test_dataset := v; train_sampler := train_sampler self;
     val_sampler := val_sampler self; test_sampler := test_sampler self |}.

Definition set_train_sampler (v : attr ESMBatchSampler.t) (self : t) : t :=
  {| args := args self; sampler_enabled := sampler_enabled self;
     train_dataset := train_dataset self; val_dataset := val_dataset self;
     test_dataset := test_dataset self; train_sampler := v;
     val_sampler := val_sampler self; test_sampler := test_sampler self |}.

Definition set_val_sampler (v : attr ESMBatchSampler.t) (self : t) : t :=
  {| args := args self; sampler_enabled := sampler_enabled self;
     train_dataset := train_dataset self; val_dataset := val_dataset self;
     test_dataset := test_dataset self; train_sampler := train_sampler self;
     val_sampler := v; test_sampler := test_sampler self |}.

Definition set_test_sampler (v : attr ESMBatchSampler.t) (self : t) : t :=
  {| args := args self; sampler_enabled := sampler_enabled self;
     train_dataset := train_dataset self; val_dataset := val_dataset self;
     test_dataset := test_dataset self; train_sampler := train_sampler self;
     val_sampler := val_sampler self; test_sampler := v |}.

(** A method body: it runs on the module, the file system and the
    generator, and yields the files opened, the module as it is left (also
    when an exception cuts the body short) and the outcome. *)
Definition M (A : Type) : Type :=
  t -> gmap string (list (item Coords)) -> Random.rng ->
  list IO.event * t * result (A * Random.rng).

Definition ret {A} (a : A) : M A := fun self _ g => ([], self, Ok (a, g)).

Definition bind {A B} (m : M A) (k : A -> M B) : M B :=
  fun self fs g =>
    match m self fs g with
    | (tr, self', Ok (a, g')) =>
        let '(tr', self'', r) := k a self' fs g' in (app tr tr', self'', r)
    | (tr, self', Raise e) => (tr, self', Raise e)
    end.

(** [self.<attribute> = value]. *)
Definition assign (f : t -> t) : M unit :=
  fun self _ g => ([], f self, Ok (tt, g)).

(** [ESMDataset(split=split, args=self.args)]. *)
Definition new_dataset (split : string) : M (ESMDataset.t Coords) :=
  fun self fs g =>
    let '(tr, r) := ESMDataset.init split (args self) fs in
    (tr, self, result_bind r (fun d => Ok (d, g))).

(** [ESMBatchSampler(data=data, args=self.args)]. *)
Definition new_sampler (data : list (item Coords)) : M ESMBatchSampler.t :=
  fun self _ g => ([], self, ESMBatchSampler.init data (args self) g).

(** The second [if] of [setup] when the sampler is disabled. *)
Definition clear_samplers : M unit :=
  bind (assign (set_train_sampler PyNone)) (fun _ =>
  bind (assign (set_val_sampler PyNone)) (fun _ =>
  assign (set_test_sampler PyNone))).

(** [setup]: the two tests on [stage] are merged, the datasets read back
    for the samplers being the ones just assigned. *)
Definition setup (stage : string) : M unit :=
  if String.eqb stage "fit" then
    bind (new_dataset "train") (fun tr =>
    bind (assign (set_train_dataset (Val tr))) (fun _ =>
    bind (new_dataset "val") (fun va =>
    bind (assign (set_val_dataset (Val va))) (fun _ =>
    fun self =>
      (if sampler_enabled self then
         bind (new_sampler (ESMDataset.data tr)) (fun s1 =>
         bind (assign (set_train_sampler (Val s1))) (fun _ =>
         bind (new_sampler (ESMDataset.data va)) (fun s2 =>
         assign (set_val_sampler (Val s2)))))
       else clear_samplers) self))))
  else
    bind (new_dataset "test") (fun te =>
    bind (assign (set_test_dataset (Val te))) (fun _ =>
    fun self =>
      (if sampler_enabled self then
         bind (new_sampler (ESMDataset.data te)) (fun s =>
         assign (set_test_sampler (Val s)))
       else clear_samplers) self)).

(** [teardown]: the module as it is left and the lines printed. *)
Definition teardown (stage : string) (self : t) : t * list string :=
  if String.eqb stage "fit" then
    (set_val_dataset PyNone (set_train_dataset PyNone self), [])
  else if String.eqb stage "test" then
    (set_test_dataset PyNone self, [])
  else (self, ["Invalid stage: " +:+ stage]).

End WithCoords.
Arguments t Coords : clear implicits.
Arguments Unset {A}.
Arguments PyNone {A}.
Arguments Val {A} a.
End ESMDataLightning.

(** ** RemoteHomologyLightning: [setup] *)

Module RemoteHomologyLightning.
Local Open Scope string_scope.

(** The fields of [args] read by [setup] and the five dataset
    attributes. *)
Record t : Type := {
  label_to_predict : string;
  data_dir : string;
  train_dataset : ESMDataLightning.attr RemoteHomologyDataset.t;
  val_dataset : ESMDataLightning.attr RemoteHomologyDataset.t;
  test_dataset_family_holdout : ESMDataLightning.attr RemoteHomologyDataset.t;
  test_dataset_superfamily_holdout :
    ESMDataLightning.attr RemoteHomologyDataset.t;
  test_dataset_fold_holdout : ESMDataLightning.attr RemoteHomologyDataset.t
}.

Definition set_train_dataset
    (v : ESMDataLightning.attr RemoteHomologyDataset.t) (self : t) : t :=
  {| label_to_predict := label_to_predict self; data_dir := data_dir self;
     train_dataset := v; val_dataset := val_dataset self;
     test_dataset_family_holdout := test_dataset_family_holdout self;
     test_dataset_superfamily_holdout := test_dataset_superfamily_holdout self;
     test_dataset_fold_holdout := test_dataset_fold_holdout self |}.

Definition set_val_dataset
    (v : ESMDataLightning.attr RemoteHomologyDataset.t) (self : t) : t :=
  {| label_to_predict := label_to_predict self; data_dir := data_dir self;
     train_dataset := train_dataset self; val_dataset := v;
     test_dataset_family_holdout := test_dataset_family_holdout self;
     test_dataset_superfamily_holdout := test_dataset_superfamily_holdout self;
     test_dataset_fold_holdout := test_dataset_fold_holdout self |}.

Definition set_test_dataset_family_holdout
    (v : ESMDataLightning.attr RemoteHomologyDataset.t) (self : t) : t :=
  {| label_to_predict := label_to_predict self; data_dir := data_dir self;
     train_dataset := train_dataset self; val_dataset := val_dataset self;
     test_dataset_family_holdout := v;
     test_dataset_superfamily_holdout := test_dataset_superfamily_holdout self;
     test_dataset_fold_holdout := test_dataset_fold_holdout self |}.

Definition set_test_dataset_superfamily_holdout
    (v : ESMDataLightning.attr RemoteHomologyDataset.t) (self : t) : t :=
  {| label_to_predict := label_to_predict self; data_dir := data_dir self;
     train_dataset := train_dataset self; val_dataset := val_dataset self;
     test_dataset_family_holdout := test_dataset_family_holdout self;
     test_dataset_superfamily_holdout := v;
     test_dataset_fold_holdout := test_dataset_fold_holdout self |}.

Definition set_test_dataset_fold_holdout
    (v : ESMDataLightning.attr RemoteHomologyDataset.t) (self : t) : t :=
  {| label_to_predict := label_to_predict self; data_dir := data_dir self;
     train_dataset := train_dataset self; val_dataset := val_dataset self;
     test_dataset_family_holdout := test_dataset_family_holdout self;
     test_dataset_superfamily_holdout := test_dataset_superfamily_holdout self;
     test_dataset_fold_holdout := v |}.

(** A method body: the files opened, the module as it is left and the
    outcome. *)
Definition M (A : Type) : Type :=
  t -> gmap string (list (gmap string pyval)) ->
  list IO.event * t * result A.

Definition ret {A} (a : A) : M A := fun self _ => ([], self, Ok a).

Definition bind {A B} (m : M A) (k : A -> M B) : M B :=
  fun self fs =>
    match m self fs with
    | (tr, self', Ok a) =>
        let '(tr', self'', r) := k a self' fs in (app tr tr', self'', r)
    | (tr, self', Raise e) => (tr, self', Raise e)
    end.

Definition assign (f : t -> t) : M unit := fun self _ => ([], f self, Ok tt).

(** [RemoteHomologyDataset(split=split,
    label_to_predict=self.args.label_to_predict,
    data_dir=self.args.data_dir)]. *)
Definition new_dataset (split : string) : M RemoteHomologyDataset.t :=
  fun self fs =>
    let '(tr, r) :=
      RemoteHomologyDataset.init split (label_to_predict self)
        (data_dir self) fs in
    (tr, self, r).

Definition setup (stage : string) : M unit :=
  if String.eqb stage "fit" then
    bind (new_dataset "train") (fun tr =>
    bind (assign (set_train_dataset (ESMDataLightning.Val tr))) (fun _ =>
    bind (new_dataset "val") (fun va =>
    assign (set_val_dataset (ESMDataLightning.Val va)))))
  else if String.eqb stage "test" then
    bind (new_dataset "test_family_holdout") (fun fa =>
    bind (assign (set_test_dataset_family_holdout (ESMDataLightning.Val fa)))
      (fun _ =>
    bind (new_dataset "test_superfamily_holdout") (fun su =>
    bind (assign (set_test_dataset_superfamily_holdout
                    (ESMDataLightning.Val su)))
      (fun _ =>
    bind (new_dataset "test_fold_holdout") (fun fo =>
    assign (set_test_dataset_fold_holdout (ESMDataLightning.Val fo)))))))
  else ret tt.

End RemoteHomologyLightning.

(** ** Vocabulary of the statements *)

(** A sequence length [len] falls in the bin that starts at [k]. *)
Definition in_bin (bin_size len k : Z) : Prop := k <= len /\ len < k + bin_size.

(** [k] is the first start, in the order of [starts], whose bin holds [len]. *)
Definition first_matching (bin_size len : Z) (starts : list Z) (k : Z) : Prop :=
  exists pre post,
    starts = pre ++ k :: post /\ in_bin bin_size len k /\
    forall k', k' ∈ pre -> ~ in_bin bin_size len k'.

(** The search of the inner loop of [create_bins], as a function. *)
Definition first_start (bin_size len : Z) (starts : list Z) : option Z :=
  List.find (fun k => (len >=? k) && (len <? k + bin_size)) starts.

(** The positions, counted from [base], of the lengths whose first bin
    starts at [k]. *)
Fixpoint placed_at (bin_size : Z) (starts : list Z) (base : nat)
    (data_lens : list nat) (k : Z) : list nat :=
  match data_lens with
  | [] => []
  | len :: rest =>
      (if decide (first_start bin_size (Z.of_nat len) starts = Some k)
       then [base] else [])
      ++ placed_at bin_size starts (S base) rest k
  end.

(** Two bin tables with the same starts and, bin by bin, the same indices
    up to their order. *)
Definition same_bins (b1 b2 : ESMBatchSampler.bins_t) : Prop :=
  Forall2 (fun x y => x.1 = y.1 /\ x.2 ≡ₚ y.2) b1 b2.

(** A record with a sequence of [n] residues, used in the examples. *)
Definition record_of_length (n : nat) : item unit :=
  {| coords := tt; seq := String.string_of_list_ascii (repeat Ascii.zero n) |}.

(** A remote-homology record and an archive holding it, used in the
    examples. *)
Definition homology_record : gmap string pyval :=
  <["primary"%string := VStr "MKV"]>
    (<["fold_label"%string := VInt 7]>
       (<["class_label"%string := VInt 2]> ∅)).

Definition homology_archive : gmap string (list (gmap string pyval)) :=
  <["data/remote_homology/train.pkl"%string := homology_record :: nil]> ∅.

(** The archive that the structural dataset reads for a split. *)
Definition archive_path (args : Namespace) (split : string) : string :=
  Py.path_join (data_dir args)
    (dataset_name args +:+ "/" +:+ split +:+ ".pkl").

(** The store that the structural dataset keeps of an archive. *)
Definition loaded_store {Coords} (args : Namespace) (d : list (item Coords))
  : ESMDataset.t Coords :=
  match max_seq_len args with
  | Some max_len =>
      ESMDataset.filter_data {| ESMDataset.data := d |} max_len
        (min_seq_len args)
  | None => {| ESMDataset.data := d |}
  end.

(** A module on which no method has run yet. *)
Definition fresh_module (args : Namespace) (enabled : bool)
  : ESMDataLightning.t unit :=
  {| ESMDataLightning.args := args;
     ESMDataLightning.sampler_enabled := enabled;
     ESMDataLightning.train_dataset := ESMDataLightning.Unset;
     ESMDataLightning.val_dataset := ESMDataLightning.Unset;
     ESMDataLightning.test_dataset := ESMDataLightning.Unset;
     ESMDataLightning.train_sampler := ESMDataLightning.Unset;
     ESMDataLightning.val_sampler := ESMDataLightning.Unset;
     ESMDataLightning.test_sampler := ESMDataLightning.Unset |}.

(** The configuration and the three archives of the examples. *)
Definition example_args : Namespace :=
  {| data_dir := "data"; dataset_name := "cath";
     max_seq_len := Some 40; min_seq_len := 10;
     batch_size := 2; sampler_bin_size := 15 |}.

Definition example_archives : gmap string (list (item unit)) :=
  <["data/cath/train.pkl"%string :=
      map record_of_length (5 :: 10 :: 12 :: 25 :: 26 :: 40 :: 41 :: nil)%nat]>
    (<["data/cath/val.pkl"%string :=
         map record_of_length (11 :: 39 :: nil)%nat]>
       (<["data/cath/test.pkl"%string :=
            map record_of_length (30 :: nil)%nat]> ∅)).

(** The archive that the remote-homology dataset reads for a split. *)
Definition homology_path (data_dir split : string) : string :=
  Py.path_join data_dir ("remote_homology/" +:+ split +:+ ".pkl").

(** A remote-homology module on which no method has run yet. *)
Definition fresh_homology_module (label data_dir : string)
  : RemoteHomologyLightning.t :=
  {| RemoteHomologyLightning.label_to_predict := label;
     RemoteHomologyLightning.data_dir := data_dir;
     RemoteHomologyLightning.train_dataset := ESMDataLightning.Unset;
     RemoteHomologyLightning.val_dataset := ESMDataLightning.Unset;
     RemoteHomologyLightning.test_dataset_family_holdout :=
       ESMDataLightning.Unset;
     RemoteHomologyLightning.test_dataset_superfamily_holdout :=
       ESMDataLightning.Unset;
     RemoteHomologyLightning.test_dataset_fold_holdout :=
       ESMDataLightning.Unset |}.

(** The three hold-out archives of the examples. *)
Definition holdout_archives : gmap string (list (gmap string pyval)) :=
  <["data/remote_homology/test_family_holdout.pkl"%string :=
      homology_record :: nil]>
    (<["data/remote_homology/test_superfamily_holdout.pkl"%string := nil]>
       (<["data/remote_homology/test_fold_holdout.pkl"%string :=
            homology_record :: homology_record :: nil]> ∅)).

(** ** [random.shuffle] permutes *)

Lemma swap_Permutation {A} (i j : nat) (x : list A) :
  Random.swap i j x ≡ₚ x.
Proof.
  unfold Random.swap.
  destruct (x !! i) as [a|] eqn:Hi; [|done].
  destruct (x !! j) as [b|] eqn:Hj; [|done].
  by apply Permutation_insert_swap.
Qed.

Lemma shuffle_from_Permutation {A} (i : nat) (x : list A) (g : Random.rng) :
  (Random.shuffle_from i x g).1 ≡ₚ x.
Proof.
  revert x g. induction i as [|i IH]; intros x g; [done|].
  cbn [Random.shuffle_from].
  destruct (Random.randbelow (S (S i)) g) as [j g'].
  rewrite IH. apply swap_Permutation.
Qed.

Lemma shuffle_Permutation {A} (x : list A) (g : Random.rng) :
  (Random.shuffle x g).1 ≡ₚ x.
Proof. apply shuffle_from_Permutation. Qed.

(** ** [range] with a positive step *)

Lemma range_from_lookup (n : nat) (start step : Z) (j : nat) :
  Py.range_from n start step !! j =
  if decide (j < n)%nat then Some (start + Z.of_nat j * step) else None.
Proof.
  revert start j. induction n as [|n IH]; intros start j; [done|].
  destruct j as [|j]; cbn [Py.range_from lookup list_lookup].
  - rewrite decide_True by lia. f_equal. lia.
  - change (Py.range_from n (start + step) step !! j = 
            if decide (S j < S n)%nat
            then Some (start + Z.of_nat (S j) * step) else None).
    rewrite IH. repeat case_decide; try lia; [|done]. f_equal. lia.
Qed.

Lemma range_from_length (n : nat) (start step : Z) :
  length (Py.range_from n start step) = n.
Proof. revert start. induction n; intros; simpl; auto. Qed.

Lemma range_len_pos_spec (start stop step : Z) (j : nat) :
  0 < step ->
  (j < Z.to_nat (Py.range_len start stop step))%nat <->
  start + Z.of_nat j * step < stop.
Proof.
  intros Hstep. unfold Py.range_len.
  destruct (Z.ltb_spec 0 step); [|lia].
  destruct (Z.ltb_spec start stop) as [Hlt|Hge].
  - assert (Hq : 0 <= (stop - start - 1) / step) by (apply Z.div_pos; lia).
    pose proof (Z.mul_div_le (stop - start - 1) step Hstep).
    pose proof (Z.mul_succ_div_gt (stop - start - 1) step Hstep).
    split; intros Hj.
    + assert (Z.of_nat j <= (stop - start - 1) / step) by lia. nia.
    + assert (Z.of_nat j < (stop - start - 1) / step + 1); [|lia].
      apply Z.lt_succ_r, Z.div_le_lower_bound; [done|nia].
  - simpl. split; [lia|]. intros Hj. nia.
Qed.

Lemma range_pos_lookup (start stop step : Z) :
  0 < step ->
  exists starts,
    Py.range start stop step = Ok starts /\
    forall (j : nat) (k : Z),
      starts !! j = Some k <-> k = start + Z.of_nat j * step /\ k < stop.
Proof.
  intros Hstep. eexists. split.
  - unfold Py.range. destruct (Z.eqb_spec step 0); [lia|]. reflexivity.
  - intros j k. rewrite range_from_lookup.
    pose proof (range_len_pos_spec start stop step j Hstep) as Hlen.
    case_decide; split.
    + intros [= <-]. split; [done|]. by apply Hlen.
    + intros [-> _]. done.
    + done.
    + intros [-> Hk]. apply Hlen in Hk. done.
Qed.

Lemma range_pos_NoDup (start stop step : Z) (starts : list Z) :
  0 < step -> Py.range start stop step = Ok starts -> NoDup starts.
Proof.
  intros Hstep Hr.
  destruct (range_pos_lookup start stop step Hstep) as (s & Hs & Hlk).
  rewrite Hr in Hs. injection Hs as <-.
  apply NoDup_alt. intros i j k Hi Hj.
  apply Hlk in Hi as [Hi _]. apply Hlk in Hj as [Hj _]. nia.
Qed.

(** ** The built-ins on small inputs *)

Example range_10_40_15 : Py.range 10 40 15 = Ok [10; 25].
Proof. reflexivity. Qed.

Example range_10_41_15 : Py.range 10 41 15 = Ok [10; 25; 40].
Proof. reflexivity. Qed.

Example range_descending : Py.range 10 0 (-5) = Ok [10; 5].
Proof. reflexivity. Qed.

Example slice_past_the_end : Py.slice [1; 2; 3; 4; 5] 4 6 = [5].
Proof. reflexivity. Qed.

Example path_join_plain :
  Py.path_join "data" "cath/train.pkl" = "data/cath/train.pkl"%string.
Proof. reflexivity. Qed.

Example path_join_trailing_slash :
  Py.path_join "data/" "cath/train.pkl" = "data/cath/train.pkl"%string.
Proof. reflexivity. Qed.

Example shuffle_five :
  Random.shuffle [1; 2; 3; 4; 5]%nat [3; 1; 2; 0]%nat
  = ([5; 1; 3; 2; 4]%nat, []).
Proof. reflexivity. Qed.

(** ** Outside the configured domain *)

(** A zero [bin_size] or [batch_size] stops the construction with the
    [ValueError] of [range]; a negative [batch_size] yields no batch. *)
Lemma create_bins_zero_bin_size {Coords} (data : list (item Coords))
    (min_len max_len : Z) (g : Random.rng) :
  ESMBatchSampler.create_bins data min_len max_len 0 g
  = Raise (ValueError "range() arg 3 must not be zero").
Proof. reflexivity. Qed.

Lemma create_batches_zero_batch_size (bins : ESMBatchSampler.bins_t)
    (g : Random.rng) :
  ESMBatchSampler.create_batches bins 0 g
  = Raise (ValueError "range() arg 3 must not be zero").
Proof. reflexivity. Qed.

Lemma create_batches_negative_batch_size (bins : ESMBatchSampler.bins_t)
    (batch_size : Z) (g : Random.rng) :
  batch_size < 0 ->
  ESMBatchSampler.create_batches bins batch_size g = Ok ([], g).
Proof.
  intros Hneg.
  unfold ESMBatchSampler.create_batches, ESMBatchSampler.chunks, Py.range,
    Py.range_len.
  destruct (Z.eqb_spec batch_size 0); [lia|].
  destruct (Z.ltb_spec 0 batch_size); [lia|].
  destruct (Z.ltb_spec (Z.of_nat (length (ESMBatchSampler.flatten bins))) 0);
    [lia|].
  reflexivity.
Qed.

(** ** The search for a record's bin *)

Lemma first_start_matching (bin_size len : Z) (starts : list Z) (k : Z) :
  first_start bin_size len starts = Some k <->
  first_matching bin_size len starts k.
Proof.
  unfold first_start, first_matching, in_bin.
  induction starts as [|k0 rest IH]; simpl.
  { split; [done|]. intros (pre & post & Heq & _). by destruct pre. }
  destruct ((len >=? k0) && (len <? k0 + bin_size)) eqn:Hm.
  - apply andb_true_iff in Hm as [H1%Z.geb_le H2%Z.ltb_lt]. split.
    + intros [= <-]. exists [], rest. split; [done|]. split; [lia|].
      intros k' Hk'. by apply elem_of_nil in Hk'.
    + intros (pre & post & Heq & Hk & Hpre). destruct pre as [|p pre].
      * simpl in Heq. by injection Heq as -> _.
      * simpl in Heq. injection Heq as <- _.
        exfalso. apply (Hpre k0); [left|lia].
  - assert (Hn : ~ (k0 <= len /\ len < k0 + bin_size)).
    { rewrite Z.geb_leb in Hm.
      apply andb_false_iff in Hm as [?%Z.leb_gt|?%Z.ltb_ge]; lia. }
    rewrite IH. split.
    + intros (pre & post & -> & Hk & Hpre). exists (k0 :: pre), post.
      split; [done|]. split; [done|].
      intros k' [->|Hk']%elem_of_cons; [done|by apply Hpre].
    + intros (pre & post & Heq & Hk & Hpre). destruct pre as [|p pre].
      * simpl in Heq. injection Heq as -> _. done.
      * simpl in Heq. injection Heq as <- ->. exists pre, post.
        split; [done|]. split; [done|].
        intros k' Hk'. apply Hpre. by right.
Qed.

Lemma first_start_elem (bin_size len : Z) (starts : list Z) (k : Z) :
  first_start bin_size len starts = Some k ->
  k ∈ starts /\ in_bin bin_size len k.
Proof.
  intros (pre & post & -> & Hk & _)%first_start_matching. split; [|done].
  apply elem_of_app. right. left.
Qed.

Lemma first_start_exists (bin_size len : Z) (starts : list Z) (k : Z) :
  k ∈ starts -> in_bin bin_size len k ->
  exists k', first_start bin_size len starts = Some k'.
Proof.
  intros Hk [H1 H2]. unfold first_start.
  destruct (List.find _ starts) as [k'|] eqn:Hf; [by eexists|].
  apply list_elem_of_In in Hk.
  pose proof (find_none _ _ Hf k Hk) as Hnone. simpl in Hnone.
  rewrite Z.geb_leb in Hnone.
  apply andb_false_iff in Hnone as [?%Z.leb_gt|?%Z.ltb_ge]; lia.
Qed.

(** ** The loops of [create_bins] in closed form *)

Lemma place_closed (bin_size : Z) (i : nat) (len : Z) (starts : list Z)
    (acc : Z -> list nat) :
  NoDup starts ->
  ESMBatchSampler.place bin_size i len (map (fun k => (k, acc k)) starts) =
  map (fun k =>
         (k, acc k ++ if decide (first_start bin_size len starts = Some k)
                      then [i] else []))
      starts.
Proof.
  unfold first_start.
  induction starts as [|k0 rest IH]; intros Hnd; [done|].
  apply NoDup_cons in Hnd as [Hk0 Hnd]. simpl.
  destruct ((len >=? k0) && (len <? k0 + bin_size)) eqn:Hm.
  - rewrite decide_True by done. f_equal.
    apply map_ext_in. intros k Hk%list_elem_of_In.
    rewrite decide_False; [by rewrite app_nil_r|].
    intros [= ->]. done.
  - specialize (IH Hnd). rewrite IH. f_equal.
    rewrite decide_False; [by rewrite app_nil_r|].
    intros Hf. apply find_some in Hf as [Hin%list_elem_of_In _]. done.
Qed.

Lemma fill_bins_closed (bin_size : Z) (starts : list Z) (data_lens : list nat) :
  NoDup starts ->
  forall (base : nat) (acc : Z -> list nat),
    ESMBatchSampler.fill_bins bin_size base data_lens
      (map (fun k => (k, acc k)) starts) =
    map (fun k => (k, acc k ++ placed_at bin_size starts base data_lens k))
      starts.
Proof.
  intros Hnd. induction data_lens as [|len rest IH]; intros base acc; simpl.
  - apply map_ext. intros k. by rewrite app_nil_r.
  - rewrite place_closed by done. rewrite IH.
    apply map_ext. intros k. by rewrite <- app_assoc.
Qed.

Lemma unshuffled_bins_closed (data_lens : list nat)
    (min_len max_len bin_size : Z) :
  0 < bin_size ->
  exists starts,
    Py.range min_len max_len bin_size = Ok starts /\
    ESMBatchSampler.unshuffled_bins data_lens min_len max_len bin_size =
    Ok (map (fun k => (k, placed_at bin_size starts 0 data_lens k)) starts).
Proof.
  intros Hpos.
  destruct (range_pos_lookup min_len max_len bin_size Hpos)
    as (starts & Hr & _).
  exists starts. split; [done|].
  unfold ESMBatchSampler.unshuffled_bins. rewrite Hr. simpl. f_equal.
  apply (fill_bins_closed bin_size starts data_lens
           (range_pos_NoDup _ _ _ _ Hpos Hr) 0%nat (fun _ => [])).
Qed.

Lemma placed_at_elem (bin_size : Z) (starts : list Z) (data_lens : list nat)
    (k : Z) (base i : nat) :
  i ∈ placed_at bin_size starts base data_lens k <->
  exists len, (base <= i)%nat /\ data_lens !! (i - base)%nat = Some len /\
              first_start bin_size (Z.of_nat len) starts = Some k.
Proof.
  revert base. induction data_lens as [|len rest IH]; intros base; simpl.
  - split; [by intros ?%elem_of_nil|]. by intros (? & _ & ? & _).
  - rewrite elem_of_app, IH. split.
    + intros [Hi|(l & Hle & Hl & Hf)].
      * case_decide; [|by apply elem_of_nil in Hi].
        apply list_elem_of_singleton in Hi as ->. exists len.
        rewrite Nat.sub_diag. done.
      * exists l. split; [lia|]. split; [|done].
        replace (i - base)%nat with (S (i - S base)) by lia. done.
    + intros (l & Hle & Hl & Hf).
      destruct (decide (i = base)) as [->|Hne].
      * left. rewrite Nat.sub_diag in Hl. injection Hl as ->.
        rewrite decide_True by done. by apply list_elem_of_singleton.
      * right. exists l. split; [lia|]. split; [|done].
        replace (i - base)%nat with (S (i - S base)) in Hl by lia. done.
Qed.

(** ** Every index is placed at most once *)

Lemma place_flatten (bin_size : Z) (i : nat) (len : Z)
    (bins : ESMBatchSampler.bins_t) :
  exists l, (l = [] \/ l = [i]) /\
    ESMBatchSampler.flatten (ESMBatchSampler.place bin_size i len bins)
    ≡ₚ l ++ ESMBatchSampler.flatten bins.
Proof.
  unfold ESMBatchSampler.flatten.
  induction bins as [|[k items] rest IH]; simpl.
  - exists []. auto.
  - destruct ((len >=? k) && (len <? k + bin_size)); simpl.
    + exists [i]. split; [auto|].
      rewrite <- app_assoc. simpl. by rewrite <- Permutation_middle.
    + destruct IH as (l & Hl & IH). exists l. split; [done|].
      rewrite IH. rewrite !app_assoc. f_equiv. apply Permutation_app_comm.
Qed.

Lemma fill_bins_flatten (bin_size : Z) (data_lens : list nat) :
  forall (base : nat) (bins : ESMBatchSampler.bins_t),
  exists l, sublist l (List.seq base (length data_lens)) /\
    ESMBatchSampler.flatten
      (ESMBatchSampler.fill_bins bin_size base data_lens bins)
    ≡ₚ ESMBatchSampler.flatten bins ++ l.
Proof.
  induction data_lens as [|len rest IH]; intros base bins; simpl.
  - exists []. split; [constructor|]. by rewrite app_nil_r.
  - destruct (IH (S base)
                (ESMBatchSampler.place bin_size base (Z.of_nat len) bins))
      as (l' & Hsub & Hperm).
    destruct (place_flatten bin_size base (Z.of_nat len) bins)
      as (l & [->| ->] & Hl).
    + exists l'. split; [by apply sublist_cons|]. by rewrite Hperm, Hl.
    + exists (base :: l'). split; [by apply sublist_skip|].
      rewrite Hperm, Hl. simpl. by rewrite <- Permutation_middle.
Qed.

Lemma shuffle_bins_same (bins : ESMBatchSampler.bins_t) (g : Random.rng) :
  same_bins (ESMBatchSampler.shuffle_bins bins g).1 bins.
Proof.
  unfold same_bins. revert g.
  induction bins as [|[k items] rest IH]; intros g; simpl; [constructor|].
  pose proof (shuffle_Permutation items g) as Hp.
  destruct (Random.shuffle items g) as [items' g1]. specialize (IH g1).
  destruct (ESMBatchSampler.shuffle_bins rest g1) as [rest' g2].
  constructor; [split; done|done].
Qed.

Lemma same_bins_fst (b1 b2 : ESMBatchSampler.bins_t) :
  same_bins b1 b2 -> map fst b1 = map fst b2.
Proof.
  induction 1 as [|x y l1 l2 [Hk _] _ IH]; [done|]. simpl. by rewrite Hk, IH.
Qed.

Lemma same_bins_flatten (b1 b2 : ESMBatchSampler.bins_t) :
  same_bins b1 b2 -> ESMBatchSampler.flatten b1 ≡ₚ ESMBatchSampler.flatten b2.
Proof.
  unfold ESMBatchSampler.flatten.
  induction 1 as [|x y l1 l2 [_ Hp] _ IH]; [done|]. simpl. by rewrite Hp, IH.
Qed.

Lemma same_bins_lookup (b1 b2 : ESMBatchSampler.bins_t) (p : nat) (k : Z)
    (items : list nat) :
  same_bins b1 b2 -> b1 !! p = Some (k, items) ->
  exists items0, b2 !! p = Some (k, items0) /\ items ≡ₚ items0.
Proof.
  intros Hs Hp.
  destruct (Forall2_lookup_l _ _ _ _ _ Hs Hp) as ([k0 items0] & Hp0 & Hk & Hi).
  simpl in *. subst k0. by exists items0.
Qed.

Lemma elem_of_concat {A} (x : A) (ls : list (list A)) :
  x ∈ concat ls <-> exists l, x ∈ l /\ l ∈ ls.
Proof.
  induction ls as [|l0 ls IH]; simpl.
  - split; [by intros ?%elem_of_nil|]. by intros (? & _ & ?%elem_of_nil).
  - rewrite elem_of_app, IH. split.
    + intros [?|(l & ? & ?)]; [exists l0; split; [done|left]|].
      exists l. split; [done|by right].
    + intros (l & Hx & [->|?]%elem_of_cons); [by left|right; by exists l].
Qed.

(** In a list of lists without any repetition overall, an element sits in
    one member only. *)
Lemma NoDup_concat_unique {A} (ls : list (list A)) (x : A) (p q : nat)
    (a b : list A) :
  NoDup (concat ls) -> ls !! p = Some a -> ls !! q = Some b ->
  x ∈ a -> x ∈ b -> p = q.
Proof.
  revert p q. induction ls as [|l ls IH]; intros p q Hnd Hp Hq Ha Hb; [done|].
  simpl in Hnd. apply NoDup_app in Hnd as (_ & Hdisj & Hnd).
  destruct p as [|p], q as [|q]; simpl in *.
  - done.
  - injection Hp as <-. exfalso. apply (Hdisj x Ha).
    apply elem_of_concat. exists b. split; [done|].
    by apply list_elem_of_lookup_2 in Hq.
  - injection Hq as <-. exfalso. apply (Hdisj x Hb).
    apply elem_of_concat. exists a. split; [done|].
    by apply list_elem_of_lookup_2 in Hp.
  - f_equal. by apply IH.
Qed.

(** The outcome of [create_bins] for a positive [bin_size], tied to the
    closed form of its loops. *)
Lemma create_bins_closed {Coords} (data : list (item Coords))
    (min_len max_len bin_size : Z) (g : Random.rng) :
  0 < bin_size ->
  exists starts bins g',
    Py.range min_len max_len bin_size = Ok starts /\
    ESMBatchSampler.create_bins data min_len max_len bin_size g
    = Ok (bins, g') /\
    same_bins bins
      (map (fun k => (k, placed_at bin_size starts 0 (map seq_len data) k))
         starts) /\
    NoDup (ESMBatchSampler.flatten bins).
Proof.
  intros Hpos.
  destruct (unshuffled_bins_closed (map seq_len data) min_len max_len
              bin_size Hpos) as (starts & Hr & Hu).
  exists starts. unfold ESMBatchSampler.create_bins. rewrite Hu. simpl.
  set (ub := map _ starts).
  pose proof (shuffle_bins_same ub g) as Hsame.
  destruct (ESMBatchSampler.shuffle_bins ub g) as [bins g'].
  exists bins, g'. simpl in Hsame. repeat split; [done|done|].
  rewrite (same_bins_flatten _ _ Hsame).
  unfold ESMBatchSampler.unshuffled_bins in Hu. rewrite Hr in Hu.
  simpl in Hu. injection Hu as Hu. fold ub in Hu. rewrite <- Hu.
  destruct (fill_bins_flatten bin_size (map seq_len data) 0%nat
              (map (fun i => (i, [])) starts)) as (l & Hsub & Hperm).
  rewrite Hperm.
  assert (Hnil : ESMBatchSampler.flatten
                   (map (fun i : Z => (i, @nil nat)) starts) = []).
  { unfold ESMBatchSampler.flatten. clear. induction starts; simpl; auto. }
  rewrite Hnil. simpl.
  eapply sublist_NoDup; [apply NoDup_seq|exact Hsub].
Qed.

(** What [create_bins] returns for a positive [bin_size]: the starts are
    those of [range], and the bin at each start holds exactly the positions
    of the records whose search ends at that start. *)
Lemma create_bins_members {Coords} (data : list (item Coords))
    (min_len max_len bin_size : Z) (g : Random.rng) :
  0 < bin_size ->
  exists starts bins g',
    Py.range min_len max_len bin_size = Ok starts /\
    ESMBatchSampler.create_bins data min_len max_len bin_size g
    = Ok (bins, g') /\
    map fst bins = starts /\
    NoDup (ESMBatchSampler.flatten bins) /\
    forall (p : nat) (k : Z) (items : list nat),
      bins !! p = Some (k, items) ->
      forall i : nat,
        i ∈ items <->
        exists it, data !! i = Some it /\
                   first_start bin_size (Z.of_nat (seq_len it)) starts = Some k.
Proof.
  intros Hpos.
  destruct (create_bins_closed data min_len max_len bin_size g Hpos)
    as (starts & bins & g' & Hr & Hc & Hsame & Hnd).
  exists starts, bins, g'. repeat split; try done.
  - rewrite (same_bins_fst _ _ Hsame).
    change (map fst (map ?f starts)) with (fst <$> (f <$> starts)).
    rewrite <- list_fmap_compose. simpl. apply list_fmap_id.
  - intros Hi.
    destruct (same_bins_lookup _ _ _ _ _ Hsame H) as (items0 & Hp0 & Hperm).
    change (map ?f starts) with (f <$> starts) in Hp0.
    rewrite list_lookup_fmap in Hp0.
    destruct (starts !! p) as [k0|]; [|done]. simpl in Hp0.
    injection Hp0 as -> <-. rewrite Hperm in Hi.
    apply placed_at_elem in Hi as (len & _ & Hlen & Hf).
    rewrite Nat.sub_0_r in Hlen.
    change (map seq_len data) with (seq_len <$> data) in Hlen.
    rewrite list_lookup_fmap in Hlen.
    destruct (data !! i) as [it|]; [|done]. simpl in Hlen.
    injection Hlen as <-. by exists it.
  - intros (it & Hit & Hf).
    destruct (same_bins_lookup _ _ _ _ _ Hsame H) as (items0 & Hp0 & Hperm).
    change (map ?f starts) with (f <$> starts) in Hp0.
    rewrite list_lookup_fmap in Hp0.
    destruct (starts !! p) as [k0|]; [|done]. simpl in Hp0.
    injection Hp0 as -> <-. rewrite Hperm.
    apply placed_at_elem. exists (seq_len it). split; [lia|].
    split; [|done]. rewrite Nat.sub_0_r.
    change (map seq_len data) with (seq_len <$> data).
    by rewrite list_lookup_fmap, Hit.
Qed.

(** C2. For a positive [bin_size], [create_bins] returns a table whose
    starts are [min_seq_len + j * bin_size] for exactly those [j] that keep
    the start strictly below [max_seq_len], in increasing order; the index of
    a record lies in a bin exactly when that bin is the first one, in start
    order, whose interval holds the record's length; and a record whose
    length is at or beyond the upper edge of the last bin lies in no bin,
    without any error. *)
Theorem create_bins_first_matching_bin {Coords} (data : list (item Coords))
    (min_len max_len bin_size : Z) (g : Random.rng) :
  0 < bin_size ->
  exists bins g',
    ESMBatchSampler.create_bins data min_len max_len bin_size g
    = Ok (bins, g') /\
    (forall (j : nat) (k : Z),
        map fst bins !! j = Some k <->
        k = min_len + Z.of_nat j * bin_size /\ k < max_len) /\
    (forall (i : nat) (k : Z) (items : list nat),
        (k, items) ∈ bins ->
        (i ∈ items <->
         exists it, data !! i = Some it /\
           first_matching bin_size (Z.of_nat (seq_len it)) (map fst bins) k)) /\
    (forall (i : nat) (it : item Coords) (k_last : Z),
        data !! i = Some it ->
        last (map fst bins) = Some k_last ->
        k_last + bin_size <= Z.of_nat (seq_len it) ->
        forall (k : Z) (items : list nat), (k, items) ∈ bins -> i ∉ items).
Proof.
  intros Hpos.
  destruct (create_bins_members data min_len max_len bin_size g Hpos)
    as (starts & bins & g' & Hr & Hc & Hfst & _ & Hmem).
  destruct (range_pos_lookup min_len max_len bin_size Hpos)
    as (starts' & Hr' & Hlk).
  rewrite Hr in Hr'. injection Hr' as <-.
  exists bins, g'. split; [done|]. rewrite Hfst.
  assert (Hitems : forall (i : nat) (k : Z) (items : list nat),
             (k, items) ∈ bins ->
             (i ∈ items <->
              exists it, data !! i = Some it /\
                first_matching bin_size (Z.of_nat (seq_len it)) starts k)).
  { intros i k items (p & Hp)%list_elem_of_lookup_1.
    rewrite (Hmem p k items Hp i).
    split; intros (it & Hit & Hf); exists it; (split; [done|]);
      by apply first_start_matching. }
  split; [exact Hlk|]. split; [exact Hitems|].
  intros i it k_last Hit Hlast Hedge k items Hin Hi.
  apply (Hitems i k items Hin) in Hi as (it' & Hit' & pre & post & Hs & Hk & _).
  rewrite Hit in Hit'. injection Hit' as <-.
  rewrite last_lookup in Hlast. apply Hlk in Hlast as [Hlast _].
  assert (Hj : starts !! length pre = Some k).
  { rewrite Hs. by rewrite list_lookup_middle. }
  pose proof (lookup_lt_Some _ _ _ Hj) as Hlt.
  apply Hlk in Hj as [Hj _]. destruct Hk as [_ Hk].
  assert (Z.of_nat (length pre) <= Z.of_nat (Init.Nat.pred (length starts)))
    by lia.
  nia.
Qed.

(** The instance of C2 on the archive of the worked example. *)
Lemma create_bins_first_matching_bin_witness :
  exists bins g',
    ESMBatchSampler.create_bins
      (map record_of_length [10; 12; 25; 26; 40]%nat) 10 40 15 []
    = Ok (bins, g') /\
    (forall (j : nat) (k : Z),
        map fst bins !! j = Some k <-> k = 10 + Z.of_nat j * 15 /\ k < 40) /\
    (forall (i : nat) (k : Z) (items : list nat),
        (k, items) ∈ bins ->
        (i ∈ items <->
         exists it,
           map record_of_length [10; 12; 25; 26; 40]%nat !! i = Some it /\
           first_matching 15 (Z.of_nat (seq_len it)) (map fst bins) k)) /\
    (forall (i : nat) (it : item unit) (k_last : Z),
        map record_of_length [10; 12; 25; 26; 40]%nat !! i = Some it ->
        last (map fst bins) = Some k_last ->
        k_last + 15 <= Z.of_nat (seq_len it) ->
        forall (k : Z) (items : list nat), (k, items) ∈ bins -> i ∉ items).
Proof.
  apply (create_bins_first_matching_bin
           (map record_of_length [10; 12; 25; 26; 40]%nat) 10 40 15 []).
  reflexivity.
Defined.

(** C4. For a positive [bin_size], no index occurs twice in the bins of
    [create_bins], whether inside one bin or across two, and the index of
    every record whose length is at least [min_seq_len] and strictly below
    [max_seq_len] occurs in one bin. *)
Theorem create_bins_exactly_one_bin {Coords} (data : list (item Coords))
    (min_len max_len bin_size : Z) (g : Random.rng) :
  0 < bin_size ->
  exists bins g',
    ESMBatchSampler.create_bins data min_len max_len bin_size g
    = Ok (bins, g') /\
    NoDup (ESMBatchSampler.flatten bins) /\
    forall (i : nat) (it : item Coords),
      data !! i = Some it ->
      min_len <= Z.of_nat (seq_len it) < max_len ->
      exists (p : nat) (k : Z) (items : list nat),
        bins !! p = Some (k, items) /\ i ∈ items /\
        forall (p' : nat) (k' : Z) (items' : list nat),
          bins !! p' = Some (k', items') -> i ∈ items' -> p' = p.
Proof.
  intros Hpos.
  destruct (create_bins_members data min_len max_len bin_size g Hpos)
    as (starts & bins & g' & Hr & Hc & Hfst & Hnd & Hmem).
  destruct (range_pos_lookup min_len max_len bin_size Hpos)
    as (starts' & Hr' & Hlk).
  rewrite Hr in Hr'. injection Hr' as <-.
  exists bins, g'. split; [done|]. split; [done|].
  intros i it Hit [Hlo Hhi].
  set (len := Z.of_nat (seq_len it)) in *.
  set (q := (len - min_len) / bin_size).
  assert (Hq0 : 0 <= q) by (apply Z.div_pos; lia).
  pose proof (Z.mul_div_le (len - min_len) bin_size Hpos) as Hq1.
  pose proof (Z.mul_succ_div_gt (len - min_len) bin_size Hpos) as Hq2.
  fold q in Hq1, Hq2.
  assert (Hk0 : starts !! Z.to_nat q = Some (min_len + q * bin_size)).
  { apply Hlk. rewrite Z2Nat.id by done. split; [done|]. nia. }
  destruct (first_start_exists bin_size len starts (min_len + q * bin_size))
    as (k & Hk).
  { by apply list_elem_of_lookup_2 in Hk0. }
  { unfold in_bin. nia. }
  destruct (first_start_elem _ _ _ _ Hk) as [(p & Hp)%list_elem_of_lookup_1 _].
  assert (Hbin : exists items, bins !! p = Some (k, items)).
  { rewrite <- Hfst in Hp. change (map fst bins) with (fst <$> bins) in Hp.
    rewrite list_lookup_fmap in Hp.
    destruct (bins !! p) as [[k0 items]|]; [|done]. simpl in Hp.
    injection Hp as ->. by exists items. }
  destruct Hbin as (items & Hbin).
  exists p, k, items. split; [done|]. split.
  - apply (Hmem p k items Hbin i). by exists it.
  - intros p' k' items' Hbin' Hi'.
    assert (Hi : i ∈ items) by (apply (Hmem p k items Hbin i); by exists it).
    apply (NoDup_concat_unique (map snd bins) i p' p items' items Hnd);
      try done; change (map snd bins) with (snd <$> bins);
      rewrite list_lookup_fmap; [by rewrite Hbin'|by rewrite Hbin].
Qed.

(** The instance of C4 on the archive of the worked example. *)
Lemma create_bins_exactly_one_bin_witness :
  exists bins g',
    ESMBatchSampler.create_bins
      (map record_of_length [10; 12; 25; 26; 40]%nat) 10 40 15 [3; 1]%nat
    = Ok (bins, g') /\
    NoDup (ESMBatchSampler.flatten bins) /\
    forall (i : nat) (it : item unit),
      map record_of_length [10; 12; 25; 26; 40]%nat !! i = Some it ->
      10 <= Z.of_nat (seq_len it) < 40 ->
      exists (p : nat) (k : Z) (items : list nat),
        bins !! p = Some (k, items) /\ i ∈ items /\
        forall (p' : nat) (k' : Z) (items' : list nat),
          bins !! p' = Some (k', items') -> i ∈ items' -> p' = p.
Proof.
  apply (create_bins_exactly_one_bin
           (map record_of_length [10; 12; 25; 26; 40]%nat) 10 40 15
           [3; 1]%nat).
  reflexivity.
Defined.

(** ** Slicing the flattened bins *)

Lemma slice_take_drop {A} (x : list A) (s : nat) (batch_size : Z) :
  0 < batch_size ->
  Py.slice x (Z.of_nat s) (Z.of_nat s + batch_size) =
  take (Z.to_nat batch_size) (drop s x).
Proof.
  intros Hpos. unfold Py.slice, Py.slice_bound.
  destruct (Z.ltb_spec (Z.of_nat s) 0); [lia|].
  destruct (Z.ltb_spec (Z.of_nat s + batch_size) 0); [lia|].
  rewrite Nat2Z.id.
  destruct (decide (s <= length x)%nat) as [Hs|Hs].
  - rewrite (Nat.min_l s) by done.
    destruct (decide (s + Z.to_nat batch_size <= length x)%nat).
    + f_equal. lia.
    + rewrite !take_ge; [done| |]; rewrite length_drop; lia.
  - rewrite (drop_ge x s) by lia. rewrite (Nat.min_r s) by lia.
    rewrite drop_all. by rewrite !take_nil.
Qed.

Lemma slices_concat {A} (x : list A) (batch_size : Z) (n s : nat) :
  0 < batch_size ->
  concat (map (fun i => Py.slice x i (i + batch_size))
            (Py.range_from n (Z.of_nat s) batch_size)) =
  take (n * Z.to_nat batch_size) (drop s x).
Proof.
  intros Hpos. revert s. induction n as [|n IH]; intros s; [done|].
  cbn [Py.range_from map concat].
  rewrite slice_take_drop by done.
  replace (Z.of_nat s + batch_size)
    with (Z.of_nat (s + Z.to_nat batch_size)) by lia.
  rewrite IH. rewrite <- drop_drop. rewrite take_take_drop. f_equal.
Qed.

(** For a positive [batch_size], [all_batches] cuts the flattened list into
    consecutive slices: slice [j] exists exactly when it starts inside the
    list, it is the [batch_size] elements from position [j * batch_size] on,
    or as many as remain, and the slices put end to end give the list
    back. *)
Lemma chunks_spec (x : list nat) (batch_size : Z) :
  0 < batch_size ->
  exists all_batches,
    ESMBatchSampler.chunks x batch_size = Ok all_batches /\
    concat all_batches = x /\
    forall (j : nat) (c : list nat),
      all_batches !! j = Some c <->
      (j * Z.to_nat batch_size < length x)%nat /\
      c = take (Z.to_nat batch_size) (drop (j * Z.to_nat batch_size) x).
Proof.
  intros Hpos. unfold ESMBatchSampler.chunks.
  destruct (range_pos_lookup 0 (Z.of_nat (length x)) batch_size Hpos)
    as (starts & Hr & Hlk).
  rewrite Hr. simpl. eexists. split; [done|]. split.
  - unfold Py.range in Hr. destruct (Z.eqb_spec batch_size 0); [lia|].
    injection Hr as <-.
    rewrite (slices_concat x batch_size _ 0%nat Hpos). simpl.
    apply take_ge.
    set (cnt := Z.to_nat _).
    destruct (decide (length x <= cnt * Z.to_nat batch_size)%nat); [done|].
    exfalso.
    assert (Hn : (cnt < cnt)%nat); [|lia]. unfold cnt at 2.
    apply range_len_pos_spec; [done|]. lia.
  - intros j c.
    change (map ?f starts) with (f <$> starts).
    rewrite list_lookup_fmap. split.
    + destruct (starts !! j) as [k|] eqn:Hk; [|done]. simpl.
      intros [= <-]. apply Hlk in Hk as [-> Hlt]. split; [lia|].
      replace (0 + Z.of_nat j * batch_size)
        with (Z.of_nat (j * Z.to_nat batch_size)) by lia.
      by apply slice_take_drop.
    + intros [Hlt ->].
      assert (Hk : starts !! j = Some (0 + Z.of_nat j * batch_size)).
      { apply Hlk. split; [done|]. lia. }
      rewrite Hk. simpl. f_equal.
      replace (0 + Z.of_nat j * batch_size)
        with (Z.of_nat (j * Z.to_nat batch_size)) by lia.
      by apply slice_take_drop.
Qed.

Lemma concat_Permutation {A} (l1 l2 : list (list A)) :
  l1 ≡ₚ l2 -> concat l1 ≡ₚ concat l2.
Proof.
  induction 1 as [|x l1 l2 _ IH|x y l|l1 l2 l3 _ IH1 _ IH2]; simpl.
  - done.
  - by rewrite IH.
  - rewrite !app_assoc. f_equiv. apply Permutation_app_comm.
  - by rewrite IH1.
Qed.

(** The outcome of [create_batches] for a positive [batch_size]. *)
Lemma create_batches_shuffled (bins : ESMBatchSampler.bins_t)
    (batch_size : Z) (g : Random.rng) :
  0 < batch_size ->
  exists all_batches batches g',
    ESMBatchSampler.chunks (ESMBatchSampler.flatten bins) batch_size
    = Ok all_batches /\
    ESMBatchSampler.create_batches bins batch_size g = Ok (batches, g') /\
    batches ≡ₚ all_batches.
Proof.
  intros Hpos.
  destruct (chunks_spec (ESMBatchSampler.flatten bins) batch_size Hpos)
    as (all_batches & Hc & _).
  unfold ESMBatchSampler.create_batches. rewrite Hc. simpl.
  pose proof (shuffle_Permutation all_batches g) as Hp.
  destruct (Random.shuffle all_batches g) as [batches g'].
  by exists all_batches, batches, g'.
Qed.

(** C10. For a positive [batch_size], the slices cut by [create_batches]
    put end to end are the flattened bins, so the chunking loses and repeats
    nothing; the batches returned are those slices, each with its contents
    and inner order intact, in a permuted order; and when the flattened bins
    hold no index twice, every index they hold lies in one batch only. *)
Theorem create_batches_partitions_flattened_bins
    (bins : ESMBatchSampler.bins_t) (batch_size : Z) (g : Random.rng) :
  0 < batch_size ->
  exists all_batches batches g',
    ESMBatchSampler.chunks (ESMBatchSampler.flatten bins) batch_size
    = Ok all_batches /\
    ESMBatchSampler.create_batches bins batch_size g = Ok (batches, g') /\
    concat all_batches = ESMBatchSampler.flatten bins /\
    batches ≡ₚ all_batches /\
    concat batches ≡ₚ ESMBatchSampler.flatten bins /\
    (NoDup (ESMBatchSampler.flatten bins) ->
     forall i : nat,
       i ∈ ESMBatchSampler.flatten bins ->
       exists (p : nat) (b : list nat),
         batches !! p = Some b /\ i ∈ b /\
         forall (p' : nat) (b' : list nat),
           batches !! p' = Some b' -> i ∈ b' -> p' = p).
Proof.
  intros Hpos.
  destruct (create_batches_shuffled bins batch_size g Hpos)
    as (all_batches & batches & g' & Hc & Hb & Hperm).
  destruct (chunks_spec (ESMBatchSampler.flatten bins) batch_size Hpos)
    as (all_batches' & Hc' & Hcat & _).
  rewrite Hc in Hc'. injection Hc' as <-.
  exists all_batches, batches, g'.
  assert (Hflat : concat batches ≡ₚ ESMBatchSampler.flatten bins).
  { rewrite <- Hcat. by apply concat_Permutation. }
  repeat split; try done.
  intros Hnd i Hi. rewrite <- Hflat in Hi, Hnd.
  apply elem_of_concat in Hi as (b & Hib & (p & Hp)%list_elem_of_lookup_1).
  exists p, b. repeat split; try done.
  intros p' b' Hp' Hib'.
  by apply (NoDup_concat_unique batches i p' p b' b Hnd).
Qed.

(** The instance of C10 on two bins holding five indices, in batches of
    two. *)
Lemma create_batches_partitions_flattened_bins_witness :
  exists all_batches batches g',
    ESMBatchSampler.chunks
      (ESMBatchSampler.flatten [(10, [1; 0; 4]%nat); (25, [3; 2]%nat)]) 2
    = Ok all_batches /\
    ESMBatchSampler.create_batches
      [(10, [1; 0; 4]%nat); (25, [3; 2]%nat)] 2 [7; 3]%nat
    = Ok (batches, g') /\
    concat all_batches
    = ESMBatchSampler.flatten [(10, [1; 0; 4]%nat); (25, [3; 2]%nat)] /\
    batches ≡ₚ all_batches /\
    concat batches
    ≡ₚ ESMBatchSampler.flatten [(10, [1; 0; 4]%nat); (25, [3; 2]%nat)] /\
    (NoDup (ESMBatchSampler.flatten [(10, [1; 0; 4]%nat); (25, [3; 2]%nat)]) ->
     forall i : nat,
       i ∈ ESMBatchSampler.flatten [(10, [1; 0; 4]%nat); (25, [3; 2]%nat)] ->
       exists (p : nat) (b : list nat),
         batches !! p = Some b /\ i ∈ b /\
         forall (p' : nat) (b' : list nat),
           batches !! p' = Some b' -> i ∈ b' -> p' = p).
Proof.
  apply (create_batches_partitions_flattened_bins
           [(10, [1; 0; 4]%nat); (25, [3; 2]%nat)] 2 [7; 3]%nat).
  reflexivity.
Defined.

(** ** The trailing slice *)

(** No batch is empty and none is longer than [batch_size]. *)
Lemma create_batches_lengths (bins : ESMBatchSampler.bins_t)
    (batch_size : Z) (g : Random.rng) :
  0 < batch_size ->
  exists batches g',
    ESMBatchSampler.create_batches bins batch_size g = Ok (batches, g') /\
    forall b, b ∈ batches -> (0 < length b <= Z.to_nat batch_size)%nat.
Proof.
  intros Hpos.
  destruct (create_batches_shuffled bins batch_size g Hpos)
    as (all_batches & batches & g' & Hc & Hb & Hperm).
  destruct (chunks_spec (ESMBatchSampler.flatten bins) batch_size Hpos)
    as (all_batches' & Hc' & _ & Hlk).
  rewrite Hc in Hc'. injection Hc' as <-.
  exists batches, g'. split; [done|]. intros b Hin.
  rewrite Hperm in Hin. apply list_elem_of_lookup_1 in Hin as (j & Hj).
  apply Hlk in Hj as [Hlt ->].
  rewrite length_take, length_drop. lia.
Qed.

(** When [batch_size] does not divide the number of binned indices, the
    slice holding the remainder is kept among the batches. *)
Lemma create_batches_keeps_remainder (bins : ESMBatchSampler.bins_t)
    (batch_size : Z) (g : Random.rng) :
  0 < batch_size ->
  (length (ESMBatchSampler.flatten bins) mod Z.to_nat batch_size <> 0)%nat ->
  exists batches g',
    ESMBatchSampler.create_batches bins batch_size g = Ok (batches, g') /\
    exists b, b ∈ batches /\
      length b
      = (length (ESMBatchSampler.flatten bins) mod Z.to_nat batch_size)%nat.
Proof.
  intros Hpos Hrem.
  destruct (create_batches_shuffled bins batch_size g Hpos)
    as (all_batches & batches & g' & Hc & Hb & Hperm).
  destruct (chunks_spec (ESMBatchSampler.flatten bins) batch_size Hpos)
    as (all_batches' & Hc' & _ & Hlk).
  rewrite Hc in Hc'. injection Hc' as <-.
  exists batches, g'. split; [done|].
  set (x := ESMBatchSampler.flatten bins) in *.
  set (b := Z.to_nat batch_size) in *.
  assert (Hb0 : b <> 0%nat) by (unfold b; lia).
  pose proof (Nat.div_mod (length x) b Hb0) as Hdm.
  pose proof (Nat.mod_upper_bound (length x) b Hb0) as Hub.
  exists (take b (drop (length x / b * b) x)). split.
  - rewrite Hperm. apply list_elem_of_lookup_2 with (length x / b)%nat.
    apply Hlk. split; [|done]. lia.
  - rewrite length_take, length_drop. lia.
Qed.

(** C1, on three in-range records and batches of two: the sampler, whose
    [drop_last] is set, yields a batch of two and a batch holding the one
    index left over. *)
Theorem create_batches_retains_short_batch :
  ESMBatchSampler.init (map record_of_length [10; 11; 12]%nat)
    {| data_dir := "data"; dataset_name := "cath";
       max_seq_len := Some 40; min_seq_len := 10;
       batch_size := 2; sampler_bin_size := 15 |}
    [2; 0; 1]%nat
  = Ok ({| ESMBatchSampler.drop_last := true;
           ESMBatchSampler.bins := [(10, [1; 0; 2]%nat); (25, [])];
           ESMBatchSampler.batches := [[1; 0]%nat; [2]%nat] |}, []).
Proof. vm_compute. reflexivity. Qed.

(** ** The worked example *)

Lemma Permutation_pair_inv {A} (l : list A) (a b : A) :
  l ≡ₚ [a; b] -> exists c d, l = [c; d].
Proof.
  intros Hp. pose proof (Permutation_length Hp) as Hlen.
  destruct l as [|c [|d [|e l]]]; try done. by exists c, d.
Qed.

(** C3. Five records with sequence lengths 10, 12, 25, 26 and 40, bins of
    width 15 over [10, 40) and batches of two: the bins start at 10 and 25,
    the first holds the indices 0 and 1, the second the indices 2 and 3, the
    batches are those two bins in some order, and index 4, the record of
    length 40, is in no batch. *)
Theorem scenario_five_records {Coords} (data : list (item Coords))
    (args : Namespace) (g : Random.rng) :
  map seq_len data = [10; 12; 25; 26; 40]%nat ->
  min_seq_len args = 10 -> max_seq_len args = Some 40 ->
  sampler_bin_size args = 15 -> batch_size args = 2 ->
  exists s g' b10 b25,
    ESMBatchSampler.init data args g = Ok (s, g') /\
    ESMBatchSampler.bins s = [(10, b10); (25, b25)] /\
    b10 ≡ₚ [0; 1]%nat /\ b25 ≡ₚ [2; 3]%nat /\
    ESMBatchSampler.batches s ≡ₚ [b10; b25] /\
    forall b, b ∈ ESMBatchSampler.batches s -> 4%nat ∉ b.
Proof.
  intros Hlens Hmin Hmax Hbin Hbatch.
  unfold ESMBatchSampler.init, ESMBatchSampler.create_bins.
  rewrite Hmin, Hmax, Hbin, Hbatch, Hlens.
  change (ESMBatchSampler.unshuffled_bins [10; 12; 25; 26; 40]%nat 10 40 15)
    with (@Ok (list (Z * list nat)) [(10, [0; 1]%nat); (25, [2; 3]%nat)]).
  cbn [result_bind ESMBatchSampler.shuffle_bins].
  pose proof (shuffle_Permutation [0; 1]%nat g) as H10.
  destruct (Random.shuffle [0; 1]%nat g) as [b10 g1].
  pose proof (shuffle_Permutation [2; 3]%nat g1) as H25.
  destruct (Random.shuffle [2; 3]%nat g1) as [b25 g2]. simpl in H10, H25.
  destruct (Permutation_pair_inv _ _ _ H10) as (a & b & ->).
  destruct (Permutation_pair_inv _ _ _ H25) as (c & d & ->).
  unfold ESMBatchSampler.create_batches.
  change (ESMBatchSampler.chunks
            (ESMBatchSampler.flatten [(10, [a; b]); (25, [c; d])]) 2)
    with (@Ok (list (list nat)) [[a; b]; [c; d]]).
  cbn [result_bind].
  pose proof (shuffle_Permutation [[a; b]; [c; d]] g2) as Hb.
  destruct (Random.shuffle [[a; b]; [c; d]] g2) as [batches g3].
  simpl in Hb.
  eexists _, g3, [a; b], [c; d]. split; [reflexivity|]. simpl.
  repeat split; try done.
  intros bt Hin H4. rewrite Hb in Hin.
  apply elem_of_cons in Hin as [->|Hin].
  - rewrite H10 in H4. apply list_elem_of_In in H4. simpl in H4. lia.
  - apply list_elem_of_singleton in Hin as ->. rewrite H25 in H4.
    apply list_elem_of_In in H4. simpl in H4. lia.
Qed.

(** The instance of C3 on five concrete records. *)
Lemma scenario_five_records_witness :
  exists s g' b10 b25,
    ESMBatchSampler.init (map record_of_length [10; 12; 25; 26; 40]%nat)
      {| data_dir := "data"; dataset_name := "cath";
         max_seq_len := Some 40; min_seq_len := 10;
         batch_size := 2; sampler_bin_size := 15 |}
      [1; 0; 5]%nat = Ok (s, g') /\
    ESMBatchSampler.bins s = [(10, b10); (25, b25)] /\
    b10 ≡ₚ [0; 1]%nat /\ b25 ≡ₚ [2; 3]%nat /\
    ESMBatchSampler.batches s ≡ₚ [b10; b25] /\
    forall b, b ∈ ESMBatchSampler.batches s -> 4%nat ∉ b.
Proof.
  apply (scenario_five_records
           (map record_of_length [10; 12; 25; 26; 40]%nat)
           {| data_dir := "data"; dataset_name := "cath";
              max_seq_len := Some 40; min_seq_len := 10;
              batch_size := 2; sampler_bin_size := 15 |}
           [1; 0; 5]%nat); reflexivity.
Defined.

(** ** ESMDataset.filter_data *)

Lemma filter_loop_filter {Coords} (max_len min_len : Z)
    (items acc : list (item Coords)) :
  ESMDataset.filter_loop max_len min_len items acc =
  acc ++ List.filter (ESMDataset.keeps max_len min_len) items.
Proof.
  revert acc. induction items as [|it rest IH]; intros acc; simpl.
  - by rewrite app_nil_r.
  - rewrite IH. destruct (ESMDataset.keeps max_len min_len it); [|done].
    by rewrite <- app_assoc.
Qed.

Lemma filter_data_filter {Coords} (self : ESMDataset.t Coords)
    (max_len min_len : Z) :
  ESMDataset.data (ESMDataset.filter_data self max_len min_len) =
  List.filter (ESMDataset.keeps max_len min_len) (ESMDataset.data self).
Proof. unfold ESMDataset.filter_data. simpl. by rewrite filter_loop_filter. Qed.

Lemma keeps_window {Coords} (max_len min_len : Z) (it : item Coords) :
  ESMDataset.keeps max_len min_len it = true <->
  min_len <= Z.of_nat (seq_len it) <= max_len.
Proof.
  unfold ESMDataset.keeps.
  rewrite andb_true_iff, Z.leb_le, Z.geb_le. lia.
Qed.

(** C5. After [filter_data] every record of the store has its sequence
    length between [min_seq_len] and [max_seq_len], both included; a record
    of the original store that is no longer there has its length outside
    that window; and with [min_seq_len > max_seq_len] the store comes out
    empty, the call returning normally. *)
Theorem filter_data_window {Coords} (self : ESMDataset.t Coords)
    (max_len min_len : Z) :
  (forall it,
      it ∈ ESMDataset.data (ESMDataset.filter_data self max_len min_len) ->
      min_len <= Z.of_nat (seq_len it) <= max_len) /\
  (forall it,
      it ∈ ESMDataset.data self ->
      it ∉ ESMDataset.data (ESMDataset.filter_data self max_len min_len) ->
      ~ (min_len <= Z.of_nat (seq_len it) <= max_len)) /\
  (max_len < min_len ->
   ESMDataset.data (ESMDataset.filter_data self max_len min_len) = []).
Proof.
  rewrite filter_data_filter. split; [|split].
  - intros it [_ Hk]%list_elem_of_In%filter_In. by apply keeps_window.
  - intros it Hin Hout Hw. apply Hout.
    apply list_elem_of_In, filter_In. split; [by apply list_elem_of_In|].
    by apply keeps_window.
  - intros Hlt. induction (ESMDataset.data self) as [|it rest IH]; [done|].
    simpl. destruct (ESMDataset.keeps max_len min_len it) eqn:Hk; [|done].
    apply keeps_window in Hk. lia.
Qed.

(** The instance of C5 on four records and the window [11, 25]. *)
Lemma filter_data_window_witness :
  ESMDataset.data
    (ESMDataset.filter_data
       {| ESMDataset.data := map record_of_length [10; 11; 25; 26]%nat |} 25 11)
  = map record_of_length [11; 25]%nat /\
  ESMDataset.data
    (ESMDataset.filter_data
       {| ESMDataset.data := map record_of_length [10; 11; 25; 26]%nat |} 11 25)
  = [].
Proof.
  split; [reflexivity|].
  apply (filter_data_window
           {| ESMDataset.data := map record_of_length [10; 11; 25; 26]%nat |}
           11 25).
  reflexivity.
Defined.

(** C9. [filter_data] keeps the retained records in their original relative
    order and hands back the original records themselves: the new store is
    the original one with the records outside the window left out. *)
Theorem filter_data_stable {Coords} (self : ESMDataset.t Coords)
    (max_len min_len : Z) :
  ESMDataset.data (ESMDataset.filter_data self max_len min_len) =
  List.filter (ESMDataset.keeps max_len min_len) (ESMDataset.data self) /\
  sublist (ESMDataset.data (ESMDataset.filter_data self max_len min_len))
    (ESMDataset.data self).
Proof.
  split; [apply filter_data_filter|].
  rewrite filter_data_filter.
  induction (ESMDataset.data self) as [|it rest IH]; simpl; [constructor|].
  destruct (ESMDataset.keeps max_len min_len it).
  - by apply sublist_skip.
  - by apply sublist_cons.
Qed.

(** ** Split validation at construction *)

Ltac io_unfold :=
  unfold mbind, mret, io_bind, io_ret, IO.bind, IO.py_assert, IO.ret,
    IO.raise, IO.load_pickle.

(** The three label-prediction datasets reject an unknown split before any
    file is opened. *)
Lemma RemoteHomologyDataset_unknown_split (split label data_dir : string)
    (fs : gmap string (list (gmap string pyval))) :
  split ∉ RemoteHomologyDataset.splits ->
  RemoteHomologyDataset.init split label data_dir fs
  = ([], Raise (AssertionError ("Invalid Split: " +:+ split))).
Proof.
  intros Hs. unfold RemoteHomologyDataset.init. io_unfold.
  by rewrite bool_decide_false.
Qed.

Lemma StabilityDataset_unknown_split (split data_dir : string)
    (fs : gmap string (list (gmap string pyval))) :
  split ∉ StabilityDataset.splits ->
  StabilityDataset.init split data_dir fs
  = ([], Raise (AssertionError ("Invalid Split: " +:+ split))).
Proof.
  intros Hs. unfold StabilityDataset.init. io_unfold.
  by rewrite bool_decide_false.
Qed.

Lemma FluoroscenceDataset_unknown_split (split data_dir : string)
    (fs : gmap string (list (gmap string pyval))) :
  split ∉ FluoroscenceDataset.splits ->
  FluoroscenceDataset.init split data_dir fs
  = ([], Raise (AssertionError ("Invalid Split: " +:+ split))).
Proof.
  intros Hs. unfold FluoroscenceDataset.init. io_unfold.
  by rewrite bool_decide_false.
Qed.

(** The structural dataset opens the archive named after whatever split it
    is given. *)
Lemma ESMDataset_init_opens_any_split {Coords} (split : string)
    (args : Namespace) (fs : gmap string (list (item Coords))) :
  dataset_name args ∈ ["cath"; "pdb"]%string ->
  (ESMDataset.init split args fs).1
  = [IO.OpenRead
       (Py.path_join (data_dir args)
          (dataset_name args +:+ "/" +:+ split +:+ ".pkl"))].
Proof.
  intros Hn. unfold ESMDataset.init. io_unfold.
  rewrite bool_decide_true by done.
  by destruct (fs !! _).
Qed.

(** C6, on the split name [bogus]: the structural dataset raises no
    invalid-split error; it opens [data/cath/bogus.pkl], loads it when the
    file is there and fails with the file error otherwise. *)
Theorem ESMDataset_init_unknown_split_reads_archive :
  ESMDataset.init "bogus"
    {| data_dir := "data"; dataset_name := "cath";
       max_seq_len := None; min_seq_len := 0;
       batch_size := 2; sampler_bin_size := 15 |}
    (<["data/cath/bogus.pkl"%string := [record_of_length 3]]> ∅)
  = ([IO.OpenRead "data/cath/bogus.pkl"],
     Ok {| ESMDataset.data := [record_of_length 3] |}) /\
  ESMDataset.init (Coords := unit) "bogus"
    {| data_dir := "data"; dataset_name := "cath";
       max_seq_len := None; min_seq_len := 0;
       batch_size := 2; sampler_bin_size := 15 |}
    ∅
  = ([IO.OpenRead "data/cath/bogus.pkl"],
     Raise (FileNotFoundError "data/cath/bogus.pkl")).
Proof. split; vm_compute; reflexivity. Qed.

(** ** RemoteHomologyDataset: the label to predict *)

Lemma RemoteHomologyDataset_init_loaded (split label data_dir : string)
    (fs : gmap string (list (gmap string pyval)))
    (d : list (gmap string pyval)) :
  split ∈ RemoteHomologyDataset.splits ->
  fs !! Py.path_join data_dir ("remote_homology/" +:+ split +:+ ".pkl")
  = Some d ->
  RemoteHomologyDataset.init split label data_dir fs
  = ([IO.OpenRead
        (Py.path_join data_dir ("remote_homology/" +:+ split +:+ ".pkl"))],
     if bool_decide (label ∈ RemoteHomologyDataset.labels)
     then Ok {| RemoteHomologyDataset.data := d;
                RemoteHomologyDataset.label_to_predict := label +:+ "_label" |}
     else Raise (AssertionError
                   ("Invalid label: " +:+ label +:+ " to predict"))).
Proof.
  intros Hs Hfs. unfold RemoteHomologyDataset.init. io_unfold.
  rewrite bool_decide_true by done. rewrite Hfs.
  by destruct (bool_decide (label ∈ RemoteHomologyDataset.labels)).
Qed.

(** C7. With a label outside [family], [superfamily], [fold], [class] the
    constructor of [RemoteHomologyDataset] never returns a dataset: it ends
    in an error, the invalid-label assertion once the split is valid and its
    archive is loaded.  With a label of the list, a valid split and its
    archive in place, the constructor returns the dataset, and an item
    access reads the field named after the label. *)
Theorem RemoteHomologyDataset_label_checked_at_construction
    (split label data_dir : string)
    (fs : gmap string (list (gmap string pyval))) :
  (label ∉ RemoteHomologyDataset.labels ->
   exists e,
     (RemoteHomologyDataset.init split label data_dir fs).2 = Raise e) /\
  (forall d : list (gmap string pyval),
     split ∈ RemoteHomologyDataset.splits ->
     fs !! Py.path_join data_dir ("remote_homology/" +:+ split +:+ ".pkl")
     = Some d ->
     (label ∉ RemoteHomologyDataset.labels ->
      (RemoteHomologyDataset.init split label data_dir fs).2
      = Raise (AssertionError
                 ("Invalid label: " +:+ label +:+ " to predict"))) /\
     (label ∈ RemoteHomologyDataset.labels ->
      exists self,
        (RemoteHomologyDataset.init split label data_dir fs).2 = Ok self /\
        RemoteHomologyDataset.data self = d /\
        forall (index : Z) (entry : gmap string pyval) (primary value : pyval),
          list_get d index = Ok entry ->
          entry !! "primary"%string = Some primary ->
          entry !! (label +:+ "_label") = Some value ->
          RemoteHomologyDataset.getitem self index = Ok (primary, value))).
Proof.
  split.
  - intros Hl. unfold RemoteHomologyDataset.init. io_unfold.
    destruct (bool_decide (split ∈ RemoteHomologyDataset.splits));
      [|by eexists].
    destruct (fs !! _); [|by eexists].
    rewrite bool_decide_false by done. by eexists.
  - intros d Hs Hfs.
    rewrite (RemoteHomologyDataset_init_loaded
               split label data_dir fs d Hs Hfs).
    split; intros Hl.
    + by rewrite bool_decide_false.
    + rewrite bool_decide_true by done. eexists. split; [done|].
      split; [done|].
      intros index entry primary value Hget Hp Hv.
      unfold RemoteHomologyDataset.getitem, dict_get. simpl.
      by rewrite Hget; simpl; rewrite Hp, Hv.
Qed.

(** The instance of C7 on an archive with one record: the label [fol] is
    refused, the label [fold] is accepted and read back by item 0. *)
Lemma RemoteHomologyDataset_label_checked_at_construction_witness :
  (RemoteHomologyDataset.init "train" "fol" "data" homology_archive).2
  = Raise (AssertionError "Invalid label: fol to predict") /\
  exists self,
    (RemoteHomologyDataset.init "train" "fold" "data" homology_archive).2
    = Ok self /\
    RemoteHomologyDataset.getitem self 0 = Ok (VStr "MKV", VInt 7).
Proof.
  assert (Hs : "train"%string ∈ RemoteHomologyDataset.splits) by left.
  split.
  - apply (proj1 (proj2 (RemoteHomologyDataset_label_checked_at_construction
                           "train" "fol" "data" homology_archive)
                    _ Hs eq_refl)).
    apply (bool_decide_unpack _). reflexivity.
  - destruct (proj2 (proj2 (RemoteHomologyDataset_label_checked_at_construction
                              "train" "fold" "data" homology_archive)
                       _ Hs eq_refl))
      as (self & Hinit & _ & Hget).
    { apply (bool_decide_unpack _). reflexivity. }
    exists self. split; [exact Hinit|].
    eapply Hget; reflexivity.
Defined.

(** ** ESMDataLoader.collate_fn *)

(** C8. [collate_fn] calls the sequence converter once and the structural
    converter once; the structural converter is given the batch itself, the
    sequence converter a list with one pair per batch item, in the same
    positions, whose second component is the sequence of that item; and
    the values returned are the ones the two converters gave for those
    arguments. *)
Theorem collate_fn_shared_batch_order
    {Coords Conf Tokens IfTokens CoordT ConfT MaskT : Type}
    (esm2_batch_converter :
       list (string * string) -> list string * list string * Tokens)
    (esm_if_batch_converter :
       list (@ESMDataLoader.sample Coords Conf) ->
       CoordT * ConfT * list string * IfTokens * MaskT)
    (batch : list (@ESMDataLoader.sample Coords Conf)) :
  exists inp_seqs : list (string * string),
    (ESMDataLoader.collate_fn esm2_batch_converter esm_if_batch_converter
       batch).1
    = [ESMDataLoader.Esm2BatchConverter inp_seqs;
       ESMDataLoader.EsmIfBatchConverter batch] /\
    length inp_seqs = length batch /\
    (forall (b : nat),
        snd <$> inp_seqs !! b = snd <$> batch !! b) /\
    (forall (b : nat) (it : ESMDataLoader.sample),
        batch !! b = Some it -> inp_seqs !! b = Some (""%string, it.2)) /\
    (ESMDataLoader.collate_fn esm2_batch_converter esm_if_batch_converter
       batch).2
    = (let '(coords, confidence, strs, _, padding_mask) :=
         esm_if_batch_converter batch in
       (coords, confidence, strs, (esm2_batch_converter inp_seqs).2,
        padding_mask)).
Proof.
  exists (map (fun it : ESMDataLoader.sample => (""%string, it.2)) batch).
  unfold ESMDataLoader.collate_fn.
  destruct (esm2_batch_converter _) as [[labels strs2] tokens].
  destruct (esm_if_batch_converter batch)
    as [[[[coords confidence] strs] iftokens] padding_mask].
  simpl. split; [done|]. split; [by rewrite length_map|].
  split; [|split; [|done]].
  - intros b. change (map ?f batch) with (f <$> batch).
    rewrite list_lookup_fmap. by destruct (batch !! b).
  - intros b it Hb. change (map ?f batch) with (f <$> batch).
    by rewrite list_lookup_fmap, Hb.
Qed.

(** ** Further properties of the sampler *)

Lemma create_bins_lookup_start {Coords} (data : list (item Coords))
    (min_len max_len bin_size : Z) (g : Random.rng) :
  0 < bin_size ->
  exists starts bins g',
    Py.range min_len max_len bin_size = Ok starts /\
    ESMBatchSampler.create_bins data min_len max_len bin_size g
    = Ok (bins, g') /\
    (forall (p : nat) (k : Z),
        starts !! p = Some k <-> exists items, bins !! p = Some (k, items)) /\
    (forall (p : nat) (k : Z) (items : list nat),
        bins !! p = Some (k, items) ->
        forall i : nat,
          i ∈ items <->
          exists it, data !! i = Some it /\
            first_start bin_size (Z.of_nat (seq_len it)) starts = Some k).
Proof.
  intros Hpos.
  destruct (create_bins_members data min_len max_len bin_size g Hpos)
    as (starts & bins & g' & Hr & Hc & Hfst & _ & Hmem).
  exists starts, bins, g'. split; [done|]. split; [done|].
  split; [|exact Hmem]. intros p k. split.
  - intros Hp. rewrite <- Hfst in Hp.
    change (map fst bins) with (fst <$> bins) in Hp.
    rewrite list_lookup_fmap in Hp.
    destruct (bins !! p) as [[k0 items]|]; [|done]. simpl in Hp.
    injection Hp as ->. by exists items.
  - intros (items & Hp). rewrite <- Hfst.
    change (map fst bins) with (fst <$> bins).
    by rewrite list_lookup_fmap, Hp.
Qed.

(** The indices that [create_bins] places, for a positive [bin_size]: those
    of the records whose length falls in one of the created intervals. *)
Lemma create_bins_binned_iff {Coords} (data : list (item Coords))
    (min_len max_len bin_size : Z) (g : Random.rng) :
  0 < bin_size ->
  exists bins g',
    ESMBatchSampler.create_bins data min_len max_len bin_size g
    = Ok (bins, g') /\
    NoDup (ESMBatchSampler.flatten bins) /\
    forall i : nat,
      i ∈ ESMBatchSampler.flatten bins <->
      exists (it : item Coords) (j : nat),
        data !! i = Some it /\
        min_len + Z.of_nat j * bin_size < max_len /\
        min_len + Z.of_nat j * bin_size <= Z.of_nat (seq_len it)
        < min_len + Z.of_nat j * bin_size + bin_size.
Proof.
  intros Hpos.
  destruct (create_bins_lookup_start data min_len max_len bin_size g Hpos)
    as (starts & bins & g' & Hr & Hc & Hst & Hmem).
  destruct (create_bins_members data min_len max_len bin_size g Hpos)
    as (starts' & bins' & g'' & Hr' & Hc' & _ & Hnd & _).
  rewrite Hc in Hc'. injection Hc' as <- <-.
  destruct (range_pos_lookup min_len max_len bin_size Hpos)
    as (starts'' & Hr'' & Hlk).
  rewrite Hr in Hr''. injection Hr'' as <-.
  exists bins, g'. split; [done|]. split; [done|].
  intros i. unfold ESMBatchSampler.flatten. rewrite elem_of_concat. split.
  - intros (items & Hi & Hin).
    change (map snd bins) with (snd <$> bins) in Hin.
    apply list_elem_of_fmap in Hin as ([k items'] & -> & Hin). simpl in Hi.
    apply list_elem_of_lookup_1 in Hin as (p & Hp).
    apply (Hmem p k items' Hp i) in Hi as (it & Hit & Hf).
    apply first_start_elem in Hf as [_ [Hlo Hhi]].
    assert (Hk : starts !! p = Some k) by (apply Hst; by exists items').
    apply Hlk in Hk as [-> Hk]. exists it, p. repeat split; try done.
  - intros (it & j & Hit & Hj & Hlo & Hhi).
    assert (Hk : starts !! j = Some (min_len + Z.of_nat j * bin_size)).
    { by apply Hlk. }
    destruct (first_start_exists bin_size (Z.of_nat (seq_len it)) starts
                (min_len + Z.of_nat j * bin_size)) as (k & Hf).
    { by apply list_elem_of_lookup_2 in Hk. }
    { by split. }
    destruct (first_start_elem _ _ _ _ Hf)
      as [(p & Hp)%list_elem_of_lookup_1 _].
    apply Hst in Hp as (items & Hp). exists items. split.
    + apply (Hmem p k items Hp i). by exists it.
    + change (map snd bins) with (snd <$> bins).
      apply list_elem_of_fmap. exists (k, items). split; [done|].
      by apply list_elem_of_lookup_2 in Hp.
Qed.

(** X1. For a positive [bin_size], the records whose indices share a bin
    have their lengths inside that bin's interval, so any two of them differ
    in length by less than [bin_size]. *)
Theorem create_bins_same_bin_lengths_close {Coords} (data : list (item Coords))
    (min_len max_len bin_size : Z) (g : Random.rng) :
  0 < bin_size ->
  exists bins g',
    ESMBatchSampler.create_bins data min_len max_len bin_size g
    = Ok (bins, g') /\
    forall (k : Z) (items : list nat) (i j : nat) (it1 it2 : item Coords),
      (k, items) ∈ bins -> i ∈ items -> j ∈ items ->
      data !! i = Some it1 -> data !! j = Some it2 ->
      k <= Z.of_nat (seq_len it1) < k + bin_size /\
      Z.abs (Z.of_nat (seq_len it1) - Z.of_nat (seq_len it2)) < bin_size.
Proof.
  intros Hpos.
  destruct (create_bins_lookup_start data min_len max_len bin_size g Hpos)
    as (starts & bins & g' & Hr & Hc & Hst & Hmem).
  exists bins, g'. split; [done|].
  intros k items i j it1 it2 (p & Hp)%list_elem_of_lookup_1 Hi Hj Hit1 Hit2.
  apply (Hmem p k items Hp) in Hi as (it1' & Hit1' & Hf1).
  apply (Hmem p k items Hp) in Hj as (it2' & Hit2' & Hf2).
  rewrite Hit1 in Hit1'. injection Hit1' as <-.
  rewrite Hit2 in Hit2'. injection Hit2' as <-.
  apply first_start_elem in Hf1 as [_ [? ?]].
  apply first_start_elem in Hf2 as [_ [? ?]]. lia.
Qed.

(** The instance of X1 on the archive of the worked example. *)
Lemma create_bins_same_bin_lengths_close_witness :
  exists bins g',
    ESMBatchSampler.create_bins
      (map record_of_length [10; 12; 25; 26; 40]%nat) 10 40 15 [1; 2]%nat
    = Ok (bins, g') /\
    forall (k : Z) (items : list nat) (i j : nat) (it1 it2 : item unit),
      (k, items) ∈ bins -> i ∈ items -> j ∈ items ->
      map record_of_length [10; 12; 25; 26; 40]%nat !! i = Some it1 ->
      map record_of_length [10; 12; 25; 26; 40]%nat !! j = Some it2 ->
      k <= Z.of_nat (seq_len it1) < k + 15 /\
      Z.abs (Z.of_nat (seq_len it1) - Z.of_nat (seq_len it2)) < 15.
Proof.
  apply (create_bins_same_bin_lengths_close
           (map record_of_length [10; 12; 25; 26; 40]%nat) 10 40 15
           [1; 2]%nat).
  reflexivity.
Defined.

(** How many slices [all_batches] has: as many as there are multiples of
    [batch_size] below the number of binned indices. *)
Lemma chunks_length (x : list nat) (batch_size : Z) :
  0 < batch_size ->
  exists all_batches,
    ESMBatchSampler.chunks x batch_size = Ok all_batches /\
    length all_batches
    = ((length x + Z.to_nat batch_size - 1) / Z.to_nat batch_size)%nat.
Proof.
  intros Hpos.
  destruct (chunks_spec x batch_size Hpos) as (cs & Hc & _ & Hlk).
  exists cs. split; [done|].
  set (b := Z.to_nat batch_size) in *.
  assert (Hb : b <> 0%nat) by (unfold b; lia).
  assert (Hlen : forall j : nat, (j < length cs)%nat <-> (j * b < length x)%nat).
  { intros j. rewrite <- lookup_lt_is_Some. split.
    - intros [c Hj]. by apply Hlk in Hj as [? _].
    - intros Hj. eexists. apply Hlk. by split. }
  set (q := ((length x + b - 1) / b)%nat).
  pose proof (Nat.Div0.mul_div_le (length x + b - 1) b) as Hq1.
  pose proof (Nat.mul_succ_div_gt (length x + b - 1) b Hb) as Hq2.
  fold q in Hq1, Hq2.
  destruct (Nat.lt_trichotomy (length cs) q) as [Hlt|[Heq|Hgt]]; [|done|].
  - exfalso. assert (~ (length cs * b < length x)%nat) as Hn.
    { intros H%Hlen. lia. }
    apply Hn. nia.
  - exfalso. assert (q * b < length x)%nat as Hn by (by apply Hlen). nia.
Qed.

(** All slices but the last are full. *)
Lemma chunks_full_before_last (x : list nat) (batch_size : Z) :
  0 < batch_size ->
  exists all_batches,
    ESMBatchSampler.chunks x batch_size = Ok all_batches /\
    forall (j : nat) (c : list nat),
      all_batches !! j = Some c ->
      (0 < length c <= Z.to_nat batch_size)%nat /\
      ((S j < length all_batches)%nat -> length c = Z.to_nat batch_size).
Proof.
  intros Hpos.
  destruct (chunks_spec x batch_size Hpos) as (cs & Hc & _ & Hlk).
  exists cs. split; [done|]. intros j c Hj.
  pose proof Hj as Hj'. apply Hlk in Hj' as [Hlt ->].
  rewrite length_take, length_drop. split; [lia|].
  intros [c' Hnext]%lookup_lt_is_Some. apply Hlk in Hnext as [Hnext _]. lia.
Qed.

Lemma filter_all_but_last {A} (P : A -> Prop) `{!forall x, Decision (P x)}
    (l : list A) :
  (forall (i : nat) (x : A),
      l !! i = Some x -> (S i < length l)%nat -> ~ P x) ->
  (length (filter P l) <= 1)%nat.
Proof.
  induction l as [|x l IH]; intros Hl; [simpl; lia|].
  destruct l as [|y l].
  - rewrite filter_cons. case_decide; simpl; lia.
  - rewrite filter_cons. rewrite decide_False.
    + apply IH. intros i z Hi Hlt. apply (Hl (S i) z); [done|simpl in *; lia].
    + apply (Hl 0%nat x); [done|simpl; lia].
Qed.

(** X2. For a positive [batch_size], no batch of [create_batches] is empty,
    none holds more than [batch_size] indices, and at most one batch holds
    fewer than [batch_size]. *)
Theorem create_batches_sizes (bins : ESMBatchSampler.bins_t)
    (batch_size : Z) (g : Random.rng) :
  0 < batch_size ->
  exists batches g',
    ESMBatchSampler.create_batches bins batch_size g = Ok (batches, g') /\
    (forall b, b ∈ batches -> (0 < length b <= Z.to_nat batch_size)%nat) /\
    (length (filter (fun b => length b <> Z.to_nat batch_size) batches)
     <= 1)%nat.
Proof.
  intros Hpos.
  destruct (create_batches_shuffled bins batch_size g Hpos)
    as (all_batches & batches & g' & Hc & Hb & Hperm).
  destruct (chunks_full_before_last (ESMBatchSampler.flatten bins)
              batch_size Hpos) as (all_batches' & Hc' & Hfull).
  rewrite Hc in Hc'. injection Hc' as <-.
  exists batches, g'. split; [done|]. split.
  - intros b Hin. rewrite Hperm in Hin.
    apply list_elem_of_lookup_1 in Hin as (j & Hj).
    by apply Hfull in Hj as [? _].
  - rewrite Hperm. apply filter_all_but_last.
    intros j c Hj Hlt Hne. apply Hfull in Hj as [_ Hj]. by apply Hne, Hj.
Qed.

(** The instance of X2 on seven indices in batches of three. *)
Lemma create_batches_sizes_witness :
  exists batches g',
    ESMBatchSampler.create_batches
      [(10, [4; 0; 6; 1]%nat); (25, [3; 2; 5]%nat)] 3 [1; 4]%nat
    = Ok (batches, g') /\
    (forall b, b ∈ batches -> (0 < length b <= Z.to_nat 3)%nat) /\
    (length (filter (fun b => length b <> Z.to_nat 3) batches) <= 1)%nat.
Proof.
  apply (create_batches_sizes
           [(10, [4; 0; 6; 1]%nat); (25, [3; 2; 5]%nat)] 3 [1; 4]%nat).
  reflexivity.
Defined.

(** X3. A [batch_size] of zero stops [create_batches] with the [ValueError]
    of [range]; a negative one makes it return no batch at all, whatever
    the bins hold, and leaves the generator untouched. *)
Theorem create_batches_nonpositive_batch_size (bins : ESMBatchSampler.bins_t)
    (batch_size : Z) (g : Random.rng) :
  batch_size <= 0 ->
  ESMBatchSampler.create_batches bins batch_size g
  = if batch_size =? 0
    then Raise (ValueError "range() arg 3 must not be zero")
    else Ok ([], g).
Proof.
  intros Hle. destruct (Z.eqb_spec batch_size 0) as [->|Hne]; [done|].
  apply create_batches_negative_batch_size. lia.
Qed.

(** The instance of X3 on a negative [batch_size]. *)
Lemma create_batches_nonpositive_batch_size_witness :
  ESMBatchSampler.create_batches
    [(10, [1; 0]%nat); (25, [3; 2]%nat)] (-2) [5]%nat
  = Ok ([], [5]%nat).
Proof.
  apply (create_batches_nonpositive_batch_size
           [(10, [1; 0]%nat); (25, [3; 2]%nat)] (-2) [5]%nat).
  done.
Defined.

(** ** The sampler as constructed by [__init__] *)

Lemma sampler_init_ok {Coords} (data : list (item Coords)) (args : Namespace)
    (max_len : Z) (g : Random.rng) :
  max_seq_len args = Some max_len ->
  0 < sampler_bin_size args -> 0 < batch_size args ->
  exists bins g1 all_batches batches g2,
    ESMBatchSampler.create_bins data (min_seq_len args) max_len
      (sampler_bin_size args) g = Ok (bins, g1) /\
    ESMBatchSampler.chunks (ESMBatchSampler.flatten bins) (batch_size args)
    = Ok all_batches /\
    batches ≡ₚ all_batches /\
    ESMBatchSampler.init data args g
    = Ok ({| ESMBatchSampler.drop_last := true;
             ESMBatchSampler.bins := bins;
             ESMBatchSampler.batches := batches |}, g2).
Proof.
  intros Hmax Hbin Hbatch.
  destruct (create_bins_closed data (min_seq_len args) max_len
              (sampler_bin_size args) g Hbin)
    as (starts & bins & g1 & _ & Hc & _ & _).
  destruct (create_batches_shuffled bins (batch_size args) g1 Hbatch)
    as (all_batches & batches & g2 & Hch & Hb & Hperm).
  exists bins, g1, all_batches, batches, g2.
  repeat split; try done.
  unfold ESMBatchSampler.init. rewrite Hmax, Hc. simpl. by rewrite Hb.
Qed.

(** X4. With positive [bin_size] and [batch_size] the constructor of the
    sampler succeeds, no index occurs twice across its batches, and the
    indices in its batches are exactly the positions of the records whose
    length lies in one of the bin intervals
    [min_seq_len + j * bin_size, min_seq_len + (j + 1) * bin_size) with
    [min_seq_len + j * bin_size < max_seq_len]. *)
Theorem sampler_batches_cover_binned_records {Coords}
    (data : list (item Coords)) (args : Namespace) (max_len : Z)
    (g : Random.rng) :
  max_seq_len args = Some max_len ->
  0 < sampler_bin_size args -> 0 < batch_size args ->
  exists s g',
    ESMBatchSampler.init data args g = Ok (s, g') /\
    NoDup (concat (ESMBatchSampler_iter s)) /\
    forall i : nat,
      i ∈ concat (ESMBatchSampler_iter s) <->
      exists (it : item Coords) (j : nat),
        data !! i = Some it /\
        min_seq_len args + Z.of_nat j * sampler_bin_size args < max_len /\
        min_seq_len args + Z.of_nat j * sampler_bin_size args
        <= Z.of_nat (seq_len it)
        < min_seq_len args + Z.of_nat j * sampler_bin_size args
          + sampler_bin_size args.
Proof.
  intros Hmax Hbin Hbatch.
  destruct (sampler_init_ok data args max_len g Hmax Hbin Hbatch)
    as (bins & g1 & all_batches & batches & g2 & Hc & Hch & Hperm & Hinit).
  destruct (create_bins_binned_iff data (min_seq_len args) max_len
              (sampler_bin_size args) g Hbin)
    as (bins' & g1' & Hc' & Hnd & Hiff).
  rewrite Hc in Hc'. injection Hc' as <- <-.
  destruct (chunks_spec (ESMBatchSampler.flatten bins) (batch_size args)
              Hbatch) as (all_batches' & Hch' & Hcat & _).
  rewrite Hch in Hch'. injection Hch' as <-.
  eexists _, g2. split; [exact Hinit|].
  unfold ESMBatchSampler_iter. simpl.
  assert (Hflat : concat batches ≡ₚ ESMBatchSampler.flatten bins).
  { rewrite <- Hcat. by apply concat_Permutation. }
  split; [by rewrite Hflat|].
  intros i. rewrite Hflat. apply Hiff.
Qed.

(** The instance of X4 on the archive of the worked example. *)
Lemma sampler_batches_cover_binned_records_witness :
  exists s g',
    ESMBatchSampler.init (map record_of_length [10; 12; 25; 26; 40]%nat)
      {| data_dir := "data"; dataset_name := "cath";
         max_seq_len := Some 40; min_seq_len := 10;
         batch_size := 3; sampler_bin_size := 15 |}
      [4; 1]%nat = Ok (s, g') /\
    NoDup (concat (ESMBatchSampler_iter s)) /\
    forall i : nat,
      i ∈ concat (ESMBatchSampler_iter s) <->
      exists (it : item unit) (j : nat),
        map record_of_length [10; 12; 25; 26; 40]%nat !! i = Some it /\
        10 + Z.of_nat j * 15 < 40 /\
        10 + Z.of_nat j * 15 <= Z.of_nat (seq_len it)
        < 10 + Z.of_nat j * 15 + 15.
Proof.
  apply (sampler_batches_cover_binned_records
           (map record_of_length [10; 12; 25; 26; 40]%nat)
           {| data_dir := "data"; dataset_name := "cath";
              max_seq_len := Some 40; min_seq_len := 10;
              batch_size := 3; sampler_bin_size := 15 |}
           40 [4; 1]%nat); reflexivity.
Defined.

(** X5. With positive [bin_size] and [batch_size], [__len__] of the
    constructed sampler is the number of binned indices divided by
    [batch_size], rounded up. *)
Theorem sampler_len_ceiling {Coords} (data : list (item Coords))
    (args : Namespace) (max_len : Z) (g : Random.rng) :
  max_seq_len args = Some max_len ->
  0 < sampler_bin_size args -> 0 < batch_size args ->
  exists s g',
    ESMBatchSampler.init data args g = Ok (s, g') /\
    ESMBatchSampler_len s
    = ((length (ESMBatchSampler.flatten (ESMBatchSampler.bins s))
        + Z.to_nat (batch_size args) - 1)
       / Z.to_nat (batch_size args))%nat.
Proof.
  intros Hmax Hbin Hbatch.
  destruct (sampler_init_ok data args max_len g Hmax Hbin Hbatch)
    as (bins & g1 & all_batches & batches & g2 & Hc & Hch & Hperm & Hinit).
  destruct (chunks_length (ESMBatchSampler.flatten bins) (batch_size args)
              Hbatch) as (all_batches' & Hch' & Hlen).
  rewrite Hch in Hch'. injection Hch' as <-.
  eexists _, g2. split; [exact Hinit|].
  unfold ESMBatchSampler_len. simpl.
  by rewrite (Permutation_length Hperm).
Qed.

(** The instance of X5 on the archive of the worked example, in batches of
    three. *)
Lemma sampler_len_ceiling_witness :
  exists s g',
    ESMBatchSampler.init (map record_of_length [10; 12; 25; 26; 40]%nat)
      {| data_dir := "data"; dataset_name := "cath";
         max_seq_len := Some 40; min_seq_len := 10;
         batch_size := 3; sampler_bin_size := 15 |}
      [4; 1]%nat = Ok (s, g') /\
    ESMBatchSampler_len s
    = ((length (ESMBatchSampler.flatten (ESMBatchSampler.bins s))
        + Z.to_nat 3 - 1) / Z.to_nat 3)%nat.
Proof.
  apply (sampler_len_ceiling
           (map record_of_length [10; 12; 25; 26; 40]%nat)
           {| data_dir := "data"; dataset_name := "cath";
              max_seq_len := Some 40; min_seq_len := 10;
              batch_size := 3; sampler_bin_size := 15 |}
           40 [4; 1]%nat); reflexivity.
Defined.

(** ** Configurations that bin nothing *)

Lemma shuffle_bins_all_empty (bins : ESMBatchSampler.bins_t) (g : Random.rng) :
  Forall (fun b => b.2 = []) bins ->
  ESMBatchSampler.shuffle_bins bins g = (bins, g).
Proof.
  induction 1 as [|[k items] rest Hk _ IH]; [done|].
  simpl in Hk. subst items. simpl. by rewrite IH.
Qed.

Lemma flatten_all_empty (bins : ESMBatchSampler.bins_t) :
  Forall (fun b => b.2 = []) bins -> ESMBatchSampler.flatten bins = [].
Proof.
  unfold ESMBatchSampler.flatten.
  induction 1 as [|[k items] rest Hk _ IH]; [done|].
  simpl in *. by rewrite Hk, IH.
Qed.

Lemma create_batches_nothing_binned (bins : ESMBatchSampler.bins_t)
    (batch_size : Z) (g : Random.rng) :
  batch_size <> 0 -> Forall (fun b => b.2 = []) bins ->
  ESMBatchSampler.create_batches bins batch_size g = Ok ([], g).
Proof.
  intros Hne Hall.
  unfold ESMBatchSampler.create_batches, ESMBatchSampler.chunks.
  rewrite (flatten_all_empty bins Hall). simpl.
  unfold Py.range, Py.range_len.
  destruct (Z.eqb_spec batch_size 0); [done|].
  by destruct (0 <? batch_size).
Qed.

Lemma place_negative_bin_size (bin_size : Z) (i : nat) (len : Z)
    (bins : ESMBatchSampler.bins_t) :
  bin_size < 0 -> ESMBatchSampler.place bin_size i len bins = bins.
Proof.
  intros Hneg. induction bins as [|[k items] rest IH]; [done|]. simpl.
  rewrite IH. rewrite Z.geb_leb.
  destruct (Z.leb_spec k len); destruct (Z.ltb_spec len (k + bin_size));
    simpl; try done. lia.
Qed.

Lemma fill_bins_negative_bin_size (bin_size : Z) (data_lens : list nat)
    (base : nat) (bins : ESMBatchSampler.bins_t) :
  bin_size < 0 ->
  ESMBatchSampler.fill_bins bin_size base data_lens bins = bins.
Proof.
  intros Hneg. revert base. induction data_lens as [|len rest IH];
    intros base; [done|].
  simpl. by rewrite place_negative_bin_size, IH.
Qed.

(** X6. With a negative [bin_size] the constructor of the sampler raises
    nothing: it creates bins (those of the descending [range]) but places no
    record in any of them, so the sampler has no batch; the generator is
    not consumed. *)
Theorem sampler_negative_bin_size_bins_nothing {Coords}
    (data : list (item Coords)) (args : Namespace) (max_len : Z)
    (g : Random.rng) :
  max_seq_len args = Some max_len ->
  sampler_bin_size args < 0 -> batch_size args <> 0 ->
  exists bins,
    Py.range (min_seq_len args) max_len (sampler_bin_size args)
    = Ok (map fst bins) /\
    Forall (fun b => b.2 = []) bins /\
    ESMBatchSampler.init data args g
    = Ok ({| ESMBatchSampler.drop_last := true;
             ESMBatchSampler.bins := bins;
             ESMBatchSampler.batches := [] |}, g).
Proof.
  intros Hmax Hneg Hbatch.
  unfold ESMBatchSampler.init, ESMBatchSampler.create_bins,
    ESMBatchSampler.unshuffled_bins.
  rewrite Hmax.
  destruct (Py.range (min_seq_len args) max_len (sampler_bin_size args))
    as [starts|e] eqn:Hr.
  2:{ unfold Py.range in Hr.
      destruct (Z.eqb_spec (sampler_bin_size args) 0); [lia|done]. }
  exists (map (fun i => (i, [])) starts).
  assert (Hall : Forall (fun b : Z * list nat => b.2 = [])
                   (map (fun i => (i, [])) starts)).
  { apply Forall_forall. intros b Hb.
    change (map ?f starts) with (f <$> starts) in Hb.
    by apply list_elem_of_fmap in Hb as (k & -> & _). }
  split; [|split; [done|]].
  - f_equal. change (map fst (map ?f starts)) with (fst <$> (f <$> starts)).
    rewrite <- list_fmap_compose. simpl. by rewrite list_fmap_id.
  - simpl. rewrite fill_bins_negative_bin_size by done.
    rewrite shuffle_bins_all_empty by done. simpl.
    by rewrite create_batches_nothing_binned.
Qed.

(** The instance of X6 on the archive of the worked example with the window
    reversed and [bin_size = -15]. *)
Lemma sampler_negative_bin_size_bins_nothing_witness :
  exists bins,
    Py.range 40 10 (-15) = Ok (map fst bins) /\
    Forall (fun b => b.2 = []) bins /\
    ESMBatchSampler.init (map record_of_length [10; 12; 25; 26; 40]%nat)
      {| data_dir := "data"; dataset_name := "cath";
         max_seq_len := Some 10; min_seq_len := 40;
         batch_size := 2; sampler_bin_size := -15 |}
      [4; 1]%nat
    = Ok ({| ESMBatchSampler.drop_last := true;
             ESMBatchSampler.bins := bins;
             ESMBatchSampler.batches := [] |}, [4; 1]%nat).
Proof.
  apply (sampler_negative_bin_size_bins_nothing
           (map record_of_length [10; 12; 25; 26; 40]%nat)
           {| data_dir := "data"; dataset_name := "cath";
              max_seq_len := Some 10; min_seq_len := 40;
              batch_size := 2; sampler_bin_size := -15 |}
           10 [4; 1]%nat); done.
Defined.

(** X7. With [max_seq_len <= min_seq_len] and a positive [bin_size] the
    constructor of the sampler creates no bin and no batch, whatever the
    data, and does not consume the generator. *)
Theorem sampler_empty_window {Coords} (data : list (item Coords))
    (args : Namespace) (max_len : Z) (g : Random.rng) :
  max_seq_len args = Some max_len ->
  max_len <= min_seq_len args ->
  0 < sampler_bin_size args -> batch_size args <> 0 ->
  ESMBatchSampler.init data args g
  = Ok ({| ESMBatchSampler.drop_last := true;
           ESMBatchSampler.bins := [];
           ESMBatchSampler.batches := [] |}, g).
Proof.
  intros Hmax Hle Hbin Hbatch.
  unfold ESMBatchSampler.init, ESMBatchSampler.create_bins,
    ESMBatchSampler.unshuffled_bins.
  rewrite Hmax.
  assert (Hr : Py.range (min_seq_len args) max_len (sampler_bin_size args)
               = Ok []).
  { unfold Py.range, Py.range_len.
    destruct (Z.eqb_spec (sampler_bin_size args) 0); [lia|].
    destruct (Z.ltb_spec 0 (sampler_bin_size args)); [|lia].
    by destruct (Z.ltb_spec (min_seq_len args) max_len); [lia|]. }
  rewrite Hr. simpl.
  assert (Hfill : forall lens base,
             ESMBatchSampler.fill_bins (sampler_bin_size args) base lens []
             = []).
  { induction lens as [|l lens IH]; intros base; [done|]. simpl. apply IH. }
  rewrite Hfill. simpl.
  by rewrite create_batches_nothing_binned.
Qed.

(** The instance of X7 on the window [40, 10). *)
Lemma sampler_empty_window_witness :
  ESMBatchSampler.init (map record_of_length [10; 12; 25; 26; 40]%nat)
    {| data_dir := "data"; dataset_name := "cath";
       max_seq_len := Some 10; min_seq_len := 40;
       batch_size := 2; sampler_bin_size := 15 |}
    [4; 1]%nat
  = Ok ({| ESMBatchSampler.drop_last := true;
           ESMBatchSampler.bins := [];
           ESMBatchSampler.batches := [] |}, [4; 1]%nat).
Proof.
  apply (sampler_empty_window
           (map record_of_length [10; 12; 25; 26; 40]%nat)
           {| data_dir := "data"; dataset_name := "cath";
              max_seq_len := Some 10; min_seq_len := 40;
              batch_size := 2; sampler_bin_size := 15 |}
           10 [4; 1]%nat); done.
Defined.

(** ** Further properties of the structural dataset *)

Lemma filter_filter {A} (f h : A -> bool) (l : list A) :
  List.filter f (List.filter h l) = List.filter (fun x => h x && f x) l.
Proof.
  induction l as [|x l IH]; [done|]. simpl.
  destruct (h x); simpl; [|done]. destruct (f x); by rewrite IH.
Qed.

(** X8. Filtering twice keeps the records inside both windows, that is
    inside the window from the larger minimum to the smaller maximum; in
    particular filtering again with the same bounds changes nothing. *)
Theorem filter_data_twice {Coords} (self : ESMDataset.t Coords)
    (max1 min1 max2 min2 : Z) :
  ESMDataset.filter_data (ESMDataset.filter_data self max1 min1) max2 min2
  = ESMDataset.filter_data self (Z.min max1 max2) (Z.max min1 min2) /\
  ESMDataset.filter_data (ESMDataset.filter_data self max1 min1) max1 min1
  = ESMDataset.filter_data self max1 min1.
Proof.
  assert (Hgen : forall M1 m1 M2 m2,
             ESMDataset.filter_data (ESMDataset.filter_data self M1 m1) M2 m2
             = ESMDataset.filter_data self (Z.min M1 M2) (Z.max m1 m2)).
  { intros M1 m1 M2 m2. unfold ESMDataset.filter_data. simpl. f_equal.
    rewrite !filter_loop_filter. simpl. rewrite filter_filter.
    induction (ESMDataset.data self) as [|it rest IH]; [done|]. simpl.
    rewrite IH.
    replace (ESMDataset.keeps M1 m1 it && ESMDataset.keeps M2 m2 it)
      with (ESMDataset.keeps (Z.min M1 M2) (Z.max m1 m2) it); [done|].
    apply eq_true_iff_eq. rewrite andb_true_iff, !keeps_window. lia. }
  split; [apply Hgen|].
  rewrite Hgen. by rewrite Z.min_id, Z.max_id.
Qed.

Lemma ESMDataset_init_loaded {Coords} (split : string) (args : Namespace)
    (fs : gmap string (list (item Coords))) (d : list (item Coords)) :
  dataset_name args ∈ ["cath"; "pdb"]%string ->
  fs !! Py.path_join (data_dir args)
          (dataset_name args +:+ "/" +:+ split +:+ ".pkl") = Some d ->
  ESMDataset.init split args fs
  = ([IO.OpenRead
        (Py.path_join (data_dir args)
           (dataset_name args +:+ "/" +:+ split +:+ ".pkl"))],
     Ok (match max_seq_len args with
         | Some max_len =>
             ESMDataset.filter_data {| ESMDataset.data := d |} max_len
               (min_seq_len args)
         | None => {| ESMDataset.data := d |}
         end)).
Proof.
  intros Hn Hfs. unfold ESMDataset.init. io_unfold.
  rewrite bool_decide_true by done. by rewrite Hfs.
Qed.

(** X9. A dataset name other than [cath] and [pdb] makes the constructor of
    the structural dataset fail with the assertion [Invalid Dataset Name]
    before any file is opened, whatever the split and the file system. *)
Theorem ESMDataset_init_invalid_dataset_name {Coords} (split : string)
    (args : Namespace) (fs : gmap string (list (item Coords))) :
  dataset_name args ∉ ["cath"; "pdb"]%string ->
  ESMDataset.init split args fs
  = ([], Raise (AssertionError "Invalid Dataset Name")).
Proof.
  intros Hn. unfold ESMDataset.init. io_unfold.
  by rewrite bool_decide_false.
Qed.

(** The instance of X9 on the dataset name [scop]. *)
Lemma ESMDataset_init_invalid_dataset_name_witness :
  ESMDataset.init "train"
    {| data_dir := "data"; dataset_name := "scop";
       max_seq_len := None; min_seq_len := 0;
       batch_size := 2; sampler_bin_size := 15 |}
    (<["data/scop/train.pkl"%string := [record_of_length 3]]> ∅)
  = ([], Raise (AssertionError "Invalid Dataset Name")).
Proof.
  apply (ESMDataset_init_invalid_dataset_name "train"
           {| data_dir := "data"; dataset_name := "scop";
              max_seq_len := None; min_seq_len := 0;
              batch_size := 2; sampler_bin_size := 15 |}
           (<["data/scop/train.pkl"%string := [record_of_length 3]]> ∅)).
  apply (bool_decide_unpack _). reflexivity.
Defined.

(** X10. With a valid dataset name and the archive of the split in place,
    the constructor opens that one file and returns a store that is a
    sublist of the archive.  With [max_seq_len] set, every stored record
    has its length between [min_seq_len] and [max_seq_len]; with
    [max_seq_len] left at [None] the store is the whole archive, whatever
    [min_seq_len] is. *)
Theorem ESMDataset_init_store {Coords} (split : string) (args : Namespace)
    (fs : gmap string (list (item Coords))) (d : list (item Coords)) :
  dataset_name args ∈ ["cath"; "pdb"]%string ->
  fs !! Py.path_join (data_dir args)
          (dataset_name args +:+ "/" +:+ split +:+ ".pkl") = Some d ->
  exists self,
    ESMDataset.init split args fs
    = ([IO.OpenRead
          (Py.path_join (data_dir args)
             (dataset_name args +:+ "/" +:+ split +:+ ".pkl"))],
       Ok self) /\
    sublist (ESMDataset.data self) d /\
    (ESMDataset.len self <= length d)%nat /\
    (forall max_len, max_seq_len args = Some max_len ->
       forall it, it ∈ ESMDataset.data self ->
         min_seq_len args <= Z.of_nat (seq_len it) <= max_len) /\
    (max_seq_len args = None -> ESMDataset.data self = d).
Proof.
  intros Hn Hfs. eexists. split; [by apply ESMDataset_init_loaded|].
  assert (Hsub : forall M m,
             sublist (ESMDataset.data
                        (ESMDataset.filter_data {| ESMDataset.data := d |} M m))
               d).
  { clear Hfs. intros M m. rewrite filter_data_filter. simpl.
    induction d as [|it rest IH]; simpl; [constructor|].
    destruct (ESMDataset.keeps M m it);
      [by apply sublist_skip|by apply sublist_cons]. }
  destruct (max_seq_len args) as [M|]; simpl.
  - split; [apply Hsub|]. split; [apply sublist_length, Hsub|].
    split; [|done]. intros max_len [= <-] it Hin.
    change (it ∈ ESMDataset.data
                   (ESMDataset.filter_data {| ESMDataset.data := d |} M
                      (min_seq_len args))) in Hin.
    rewrite filter_data_filter in Hin.
    apply list_elem_of_In, filter_In in Hin as [_ Hk].
    by apply keeps_window.
  - unfold ESMDataset.len. simpl. split; [done|]. split; [done|].
    split; [done|done].
Qed.

(** The instance of X10 on an archive of four records and the window
    [11, 25]. *)
Lemma ESMDataset_init_store_witness :
  exists self,
    ESMDataset.init "train"
      {| data_dir := "data"; dataset_name := "pdb";
         max_seq_len := Some 25; min_seq_len := 11;
         batch_size := 2; sampler_bin_size := 15 |}
      (<["data/pdb/train.pkl"%string :=
           map record_of_length [10; 11; 25; 26]%nat]> ∅)
    = ([IO.OpenRead "data/pdb/train.pkl"], Ok self) /\
    sublist (ESMDataset.data self) (map record_of_length [10; 11; 25; 26]%nat) /\
    (ESMDataset.len self <= 4)%nat.
Proof.
  destruct (ESMDataset_init_store "train"
              {| data_dir := "data"; dataset_name := "pdb";
                 max_seq_len := Some 25; min_seq_len := 11;
                 batch_size := 2; sampler_bin_size := 15 |}
              (<["data/pdb/train.pkl"%string :=
                   map record_of_length [10; 11; 25; 26]%nat]> ∅)
              (map record_of_length [10; 11; 25; 26]%nat))
    as (self & Hinit & Hsub & Hlen & _).
  - apply (bool_decide_unpack _). reflexivity.
  - reflexivity.
  - exists self. split; [exact Hinit|]. split; [exact Hsub|exact Hlen].
Defined.

(** X11. With a valid dataset name and no archive for the split, the
    constructor fails with [FileNotFoundError] for the path
    [data_dir/dataset_name/split.pkl], after trying to open that file and
    no other. *)
Theorem ESMDataset_init_missing_archive {Coords} (split : string)
    (args : Namespace) (fs : gmap string (list (item Coords))) :
  dataset_name args ∈ ["cath"; "pdb"]%string ->
  fs !! Py.path_join (data_dir args)
          (dataset_name args +:+ "/" +:+ split +:+ ".pkl") = None ->
  ESMDataset.init split args fs
  = ([IO.OpenRead
        (Py.path_join (data_dir args)
           (dataset_name args +:+ "/" +:+ split +:+ ".pkl"))],
     Raise (FileNotFoundError
              (Py.path_join (data_dir args)
                 (dataset_name args +:+ "/" +:+ split +:+ ".pkl")))).
Proof.
  intros Hn Hfs. unfold ESMDataset.init. io_unfold.
  rewrite bool_decide_true by done. by rewrite Hfs.
Qed.

(** The instance of X11 on a file system that only holds the [train]
    archive. *)
Lemma ESMDataset_init_missing_archive_witness :
  ESMDataset.init "val"
    {| data_dir := "data"; dataset_name := "pdb";
       max_seq_len := None; min_seq_len := 0;
       batch_size := 2; sampler_bin_size := 15 |}
    (<["data/pdb/train.pkl"%string := [record_of_length 3]]> ∅)
  = ([IO.OpenRead "data/pdb/val.pkl"],
     Raise (FileNotFoundError "data/pdb/val.pkl")).
Proof.
  apply (ESMDataset_init_missing_archive "val"
           {| data_dir := "data"; dataset_name := "pdb";
              max_seq_len := None; min_seq_len := 0;
              batch_size := 2; sampler_bin_size := 15 |}
           (<["data/pdb/train.pkl"%string := [record_of_length 3]]> ∅)).
  - apply (bool_decide_unpack _). reflexivity.
  - reflexivity.
Defined.

(** ** Indexing *)

Lemma list_get_position {A} (x : list A) (i : nat) (a : A) :
  x !! i = Some a -> list_get x (Z.of_nat i) = Ok a.
Proof.
  intros Hi. unfold list_get.
  destruct (Z.ltb_spec (Z.of_nat i) 0); [lia|].
  destruct (Z.ltb_spec (Z.of_nat i) 0); [lia|].
  by rewrite Nat2Z.id, Hi.
Qed.

Lemma list_get_from_end {A} (x : list A) (index : Z) :
  0 <= index < Z.of_nat (length x) ->
  list_get x (index - Z.of_nat (length x)) = list_get x index.
Proof.
  intros [Hlo Hhi]. unfold list_get.
  destruct (Z.ltb_spec (index - Z.of_nat (length x)) 0); [|lia].
  destruct (Z.ltb_spec index 0); [lia|].
  by replace (index - Z.of_nat (length x) + Z.of_nat (length x))
    with index by lia.
Qed.

Lemma list_get_out_of_range {A} (x : list A) (index : Z) :
  index < - Z.of_nat (length x) \/ Z.of_nat (length x) <= index ->
  list_get x index = Raise (IndexError "list index out of range").
Proof.
  intros Hout. unfold list_get.
  destruct (Z.ltb_spec index 0).
  - destruct (Z.ltb_spec (index + Z.of_nat (length x)) 0); [done|].
    destruct Hout as [Hout|Hout]; lia.
  - destruct (Z.ltb_spec index 0); [lia|].
    rewrite lookup_ge_None_2; [done|lia].
Qed.

Lemma list_get_in_range {A} (x : list A) (index : Z) :
  - Z.of_nat (length x) <= index < Z.of_nat (length x) ->
  exists a, list_get x index = Ok a /\ a ∈ x.
Proof.
  intros [Hlo Hhi].
  assert (Hpos : forall i, 0 <= i < Z.of_nat (length x) ->
                   exists a, list_get x i = Ok a /\ a ∈ x).
  { intros i [Hi0 Hi1].
    destruct (lookup_lt_is_Some_2 x (Z.to_nat i)) as [a Ha]; [lia|].
    exists a. split; [|by apply list_elem_of_lookup_2 in Ha].
    rewrite <- (Z2Nat.id i) by done. by apply list_get_position. }
  destruct (Z.ltb_spec index 0) as [Hneg|Hnn].
  - destruct (Hpos (index + Z.of_nat (length x))) as (a & Ha & Hin); [lia|].
    exists a. split; [|done]. rewrite <- Ha.
    rewrite <- (list_get_from_end x (index + Z.of_nat (length x))) by lia.
    f_equal. lia.
  - apply Hpos. lia.
Qed.

(** X12. [ESMDataset.__getitem__] answers every position from [-len] up
    to [len - 1] with a record of the store, left as it is but for the
    conversion of its coordinates, a position [idx - len] naming the same
    record as [idx]; any other position raises [IndexError]. *)
Theorem ESMDataset_getitem_positions {Coords Coords32 Conf : Type}
    (astype_float32 : Coords -> Coords32) (self : ESMDataset.t Coords)
    (idx : Z) :
  (- Z.of_nat (ESMDataset.len self) <= idx < Z.of_nat (ESMDataset.len self) ->
   exists it,
     it ∈ ESMDataset.data self /\
     ESMDataset_getitem (Conf := Conf) astype_float32 self idx
     = Ok (astype_float32 (coords it), None, seq it)) /\
  (0 <= idx < Z.of_nat (ESMDataset.len self) ->
   ESMDataset_getitem (Conf := Conf) astype_float32 self
     (idx - Z.of_nat (ESMDataset.len self))
   = ESMDataset_getitem astype_float32 self idx) /\
  (idx < - Z.of_nat (ESMDataset.len self) \/
   Z.of_nat (ESMDataset.len self) <= idx ->
   ESMDataset_getitem (Conf := Conf) astype_float32 self idx
   = Raise (IndexError "list index out of range")).
Proof.
  unfold ESMDataset.len, ESMDataset_getitem. split; [|split].
  - intros Hr.
    destruct (list_get_in_range (ESMDataset.data self) idx Hr)
      as (it & Hit & Hin).
    exists it. split; [done|]. by rewrite Hit.
  - intros Hr. by rewrite list_get_from_end.
  - intros Hr. by rewrite list_get_out_of_range.
Qed.

(** The instance of X12 on a store of three records: the last position,
    read from the end, and a position past the end. *)
Lemma ESMDataset_getitem_positions_witness :
  ESMDataset_getitem (Conf := unit) (fun c : unit => c)
    {| ESMDataset.data := map record_of_length [3; 4; 5]%nat |} (2 - 3)
  = ESMDataset_getitem (fun c : unit => c)
      {| ESMDataset.data := map record_of_length [3; 4; 5]%nat |} 2 /\
  ESMDataset_getitem (Conf := unit) (fun c : unit => c)
    {| ESMDataset.data := map record_of_length [3; 4; 5]%nat |} 3
  = Raise (IndexError "list index out of range").
Proof.
  split.
  - apply (proj1 (proj2 (ESMDataset_getitem_positions (Conf := unit)
                           (fun c : unit => c)
                           {| ESMDataset.data :=
                                map record_of_length [3; 4; 5]%nat |} 2))).
    by vm_compute.
  - apply (proj2 (proj2 (ESMDataset_getitem_positions (Conf := unit)
                           (fun c : unit => c)
                           {| ESMDataset.data :=
                                map record_of_length [3; 4; 5]%nat |} 3))).
    right. by vm_compute.
Defined.

(** X13. Every index that the sampler built over a store puts in a batch
    is one that [__getitem__] of that store accepts: the access returns the
    record at that position, whose sequence is at least [min_seq_len]
    long. *)
Theorem sampler_indices_fetchable {Coords Coords32 Conf : Type}
    (astype_float32 : Coords -> Coords32) (self : ESMDataset.t Coords)
    (args : Namespace) (max_len : Z) (g : Random.rng) :
  max_seq_len args = Some max_len ->
  0 < sampler_bin_size args -> 0 < batch_size args ->
  exists s g',
    ESMBatchSampler.init (ESMDataset.data self) args g = Ok (s, g') /\
    forall (batch : list nat) (i : nat),
      batch ∈ ESMBatchSampler_iter s -> i ∈ batch ->
      exists it,
        ESMDataset.data self !! i = Some it /\
        ESMDataset_getitem (Conf := Conf) astype_float32 self (Z.of_nat i)
        = Ok (astype_float32 (coords it), None, seq it) /\
        min_seq_len args <= Z.of_nat (seq_len it).
Proof.
  intros Hmax Hbin Hbatch.
  destruct (sampler_init_ok (ESMDataset.data self) args max_len g
              Hmax Hbin Hbatch)
    as (bins & g1 & all_batches & batches & g2 & Hc & Hch & Hperm & Hinit).
  destruct (create_bins_binned_iff (ESMDataset.data self) (min_seq_len args)
              max_len (sampler_bin_size args) g Hbin)
    as (bins' & g1' & Hc' & _ & Hiff).
  rewrite Hc in Hc'. injection Hc' as <- <-.
  destruct (chunks_spec (ESMBatchSampler.flatten bins) (batch_size args)
              Hbatch) as (all_batches' & Hch' & Hcat & _).
  rewrite Hch in Hch'. injection Hch' as <-.
  eexists _, g2. split; [exact Hinit|].
  unfold ESMBatchSampler_iter. simpl. intros batch i Hb Hi.
  assert (Hin : i ∈ ESMBatchSampler.flatten bins).
  { rewrite <- Hcat. rewrite <- (concat_Permutation _ _ Hperm).
    apply elem_of_concat. by exists batch. }
  apply Hiff in Hin as (it & j & Hit & _ & Hlo & _).
  exists it. split; [done|]. split; [|lia].
  unfold ESMDataset_getitem. by rewrite (list_get_position _ _ _ Hit).
Qed.

(** The instance of X13 on the store of the worked example. *)
Lemma sampler_indices_fetchable_witness :
  exists s g',
    ESMBatchSampler.init (map record_of_length [10; 12; 25; 26; 40]%nat)
      {| data_dir := "data"; dataset_name := "cath";
         max_seq_len := Some 40; min_seq_len := 10;
         batch_size := 2; sampler_bin_size := 15 |} [3]%nat = Ok (s, g') /\
    forall (batch : list nat) (i : nat),
      batch ∈ ESMBatchSampler_iter s -> i ∈ batch ->
      exists it,
        map record_of_length [10; 12; 25; 26; 40]%nat !! i = Some it /\
        ESMDataset_getitem (Conf := unit) (fun c : unit => c)
          {| ESMDataset.data :=
               map record_of_length [10; 12; 25; 26; 40]%nat |} (Z.of_nat i)
        = Ok (coords it, None, seq it) /\
        10 <= Z.of_nat (seq_len it).
Proof.
  apply (sampler_indices_fetchable (Conf := unit) (fun c : unit => c)
           {| ESMDataset.data :=
                map record_of_length [10; 12; 25; 26; 40]%nat |}
           {| data_dir := "data"; dataset_name := "cath";
              max_seq_len := Some 40; min_seq_len := 10;
              batch_size := 2; sampler_bin_size := 15 |}
           40 [3]%nat); reflexivity.
Defined.

(** ** Further properties of the label-prediction datasets *)

(** X14. Each of the three label-prediction datasets rejects a split that
    is not in its own list with the assertion [Invalid Split: <split>], and
    does so before any file is opened. *)
Theorem label_datasets_reject_unknown_split (split label data_dir : string)
    (fs : gmap string (list (gmap string pyval))) :
  (split ∉ RemoteHomologyDataset.splits ->
   RemoteHomologyDataset.init split label data_dir fs
   = ([], Raise (AssertionError ("Invalid Split: " +:+ split)))) /\
  (split ∉ StabilityDataset.splits ->
   StabilityDataset.init split data_dir fs
   = ([], Raise (AssertionError ("Invalid Split: " +:+ split)))) /\
  (split ∉ FluoroscenceDataset.splits ->
   FluoroscenceDataset.init split data_dir fs
   = ([], Raise (AssertionError ("Invalid Split: " +:+ split)))).
Proof.
  split; [|split].
  - apply RemoteHomologyDataset_unknown_split.
  - apply StabilityDataset_unknown_split.
  - apply FluoroscenceDataset_unknown_split.
Qed.

(** The instance of X14 on the split [test], which only the remote-homology
    dataset lacks, and on the split [dev]. *)
Lemma label_datasets_reject_unknown_split_witness :
  RemoteHomologyDataset.init "test" "fold" "data" homology_archive
  = ([], Raise (AssertionError "Invalid Split: test")) /\
  StabilityDataset.init "dev" "data" homology_archive
  = ([], Raise (AssertionError "Invalid Split: dev")) /\
  FluoroscenceDataset.init "dev" "data" homology_archive
  = ([], Raise (AssertionError "Invalid Split: dev")).
Proof.
  split; [|split].
  - apply (proj1 (label_datasets_reject_unknown_split
                    "test" "fold" "data" homology_archive)).
    apply (bool_decide_unpack _). reflexivity.
  - apply (proj1 (proj2 (label_datasets_reject_unknown_split
                           "dev" "fold" "data" homology_archive))).
    apply (bool_decide_unpack _). reflexivity.
  - apply (proj2 (proj2 (label_datasets_reject_unknown_split
                           "dev" "fold" "data" homology_archive))).
    apply (bool_decide_unpack _). reflexivity.
Defined.

(** X15. With a valid split the constructor of the remote-homology dataset
    opens [data_dir/remote_homology/<split>.pkl] and no other file, and it
    does so before it looks at the label: when the archive is missing the
    outcome is [FileNotFoundError], also for a label that is not valid. *)
Theorem RemoteHomologyDataset_init_reads_before_label_check
    (split label data_dir : string)
    (fs : gmap string (list (gmap string pyval))) :
  split ∈ RemoteHomologyDataset.splits ->
  (RemoteHomologyDataset.init split label data_dir fs).1
  = [IO.OpenRead
       (Py.path_join data_dir ("remote_homology/" +:+ split +:+ ".pkl"))] /\
  (fs !! Py.path_join data_dir ("remote_homology/" +:+ split +:+ ".pkl")
   = None ->
   (RemoteHomologyDataset.init split label data_dir fs).2
   = Raise (FileNotFoundError
              (Py.path_join data_dir
                 ("remote_homology/" +:+ split +:+ ".pkl")))).
Proof.
  intros Hs. unfold RemoteHomologyDataset.init. io_unfold.
  rewrite bool_decide_true by done.
  destruct (fs !! _) as [d|]; simpl.
  - split; [|done].
    by destruct (bool_decide (label ∈ RemoteHomologyDataset.labels)).
  - done.
Qed.

(** The instance of X15 on the split [val], whose archive is missing, with
    the invalid label [fol]. *)
Lemma RemoteHomologyDataset_init_reads_before_label_check_witness :
  (RemoteHomologyDataset.init "val" "fol" "data" homology_archive).1
  = [IO.OpenRead "data/remote_homology/val.pkl"] /\
  (RemoteHomologyDataset.init "val" "fol" "data" homology_archive).2
  = Raise (FileNotFoundError "data/remote_homology/val.pkl").
Proof.
  assert (Hs : "val"%string ∈ RemoteHomologyDataset.splits)
    by (apply (bool_decide_unpack _); reflexivity).
  destruct (RemoteHomologyDataset_init_reads_before_label_check
              "val" "fol" "data" homology_archive Hs) as [Htr Hres].
  split; [exact Htr|]. apply Hres. reflexivity.
Defined.

(** X16. The constructor of the remote-homology dataset does not look
    inside the records: a dataset over an archive is built whatever its
    records hold, and the missing field shows at access time, as
    [KeyError] for [primary] when that field is absent and as [KeyError]
    for [<label>_label] when only the label field is; a position outside
    the store raises [IndexError]. *)
Theorem RemoteHomologyDataset_missing_field_at_access
    (split label data_dir : string)
    (fs : gmap string (list (gmap string pyval)))
    (d : list (gmap string pyval)) :
  split ∈ RemoteHomologyDataset.splits ->
  label ∈ RemoteHomologyDataset.labels ->
  fs !! Py.path_join data_dir ("remote_homology/" +:+ split +:+ ".pkl")
  = Some d ->
  exists self,
    (RemoteHomologyDataset.init split label data_dir fs).2 = Ok self /\
    RemoteHomologyDataset.len self = length d /\
    (forall (index : Z) (entry : gmap string pyval),
        list_get d index = Ok entry ->
        (entry !! "primary"%string = None ->
         RemoteHomologyDataset.getitem self index
         = Raise (KeyError "primary")) /\
        (is_Some (entry !! "primary"%string) ->
         entry !! (label +:+ "_label") = None ->
         RemoteHomologyDataset.getitem self index
         = Raise (KeyError (label +:+ "_label")))) /\
    (forall index : Z,
        index < - Z.of_nat (length d) \/ Z.of_nat (length d) <= index ->
        RemoteHomologyDataset.getitem self index
        = Raise (IndexError "list index out of range")).
Proof.
  intros Hs Hl Hfs.
  rewrite (RemoteHomologyDataset_init_loaded split label data_dir fs d Hs Hfs).
  rewrite bool_decide_true by done. eexists. split; [done|].
  split; [done|]. unfold RemoteHomologyDataset.getitem, dict_get. simpl.
  split.
  - intros index entry Hget. rewrite Hget. simpl. split.
    + by intros ->.
    + intros [p Hp] Hv. by rewrite Hp, Hv.
  - intros index Hout. by rewrite list_get_out_of_range.
Qed.

(** The instance of X16 on the one-record archive, which has no
    [family_label]. *)
Lemma RemoteHomologyDataset_missing_field_at_access_witness :
  exists self,
    (RemoteHomologyDataset.init "train" "family" "data" homology_archive).2
    = Ok self /\
    RemoteHomologyDataset.getitem self 0 = Raise (KeyError "family_label") /\
    RemoteHomologyDataset.getitem self 1
    = Raise (IndexError "list index out of range").
Proof.
  destruct (RemoteHomologyDataset_missing_field_at_access
              "train" "family" "data" homology_archive [homology_record])
    as (self & Hinit & _ & Hkey & Hidx).
  - apply (bool_decide_unpack _). reflexivity.
  - apply (bool_decide_unpack _). reflexivity.
  - reflexivity.
  - exists self. split; [exact Hinit|]. split.
    + apply (proj2 (Hkey 0 homology_record eq_refl)).
      * by eexists.
      * reflexivity.
    + apply Hidx. right. by vm_compute.
Defined.

(** ** Collators of the label-prediction modules *)

Lemma label_collate_aligned {Seq Label Tokens LabelsT : Type}
    (esm2_batch_converter :
       list (string * Seq) -> list string * list string * Tokens)
    (torch_tensor : list Label -> LabelCollate.dtype -> LabelsT)
    (dt : LabelCollate.dtype) (batch : list (Seq * Label)) :
  exists (values : list Label) (inp_seqs : list (string * Seq)),
    (LabelCollate.collate esm2_batch_converter torch_tensor dt batch).1
    = [LabelCollate.TorchTensor values dt;
       LabelCollate.Esm2BatchConverter inp_seqs] /\
    length values = length batch /\ length inp_seqs = length batch /\
    (forall (b : nat) (it : Seq * Label),
        batch !! b = Some it ->
        values !! b = Some it.2 /\ inp_seqs !! b = Some (""%string, it.1)) /\
    (LabelCollate.collate esm2_batch_converter torch_tensor dt batch).2
    = ((esm2_batch_converter inp_seqs).2, torch_tensor values dt).
Proof.
  exists (map (fun it : Seq * Label => it.2) batch),
    (map (fun it : Seq * Label => (""%string, it.1)) batch).
  unfold LabelCollate.collate.
  destruct (esm2_batch_converter _) as [[labels strs] tokens]. simpl.
  split; [done|]. rewrite !length_map. split; [done|]. split; [done|].
  split; [|done]. intros b it Hb.
  change (map ?f batch) with (f <$> batch).
  by rewrite !list_lookup_fmap, Hb.
Qed.

(** X17. [RemoteHomologyLightning.collate_fn] asks [torch.tensor] for an
    integer tensor of the labels and then calls the sequence converter
    once; both arguments have one entry per batch item, position [b]
    holding the label and the sequence of item [b], and the two values
    returned are the ones obtained for those arguments. *)
Theorem RemoteHomologyLightning_collate_fn_aligned
    {Seq Label Tokens LabelsT : Type}
    (esm2_batch_converter :
       list (string * Seq) -> list string * list string * Tokens)
    (torch_tensor : list Label -> LabelCollate.dtype -> LabelsT)
    (batch : list (Seq * Label)) :
  exists (values : list Label) (inp_seqs : list (string * Seq)),
    (LabelCollate.RemoteHomologyLightning_collate_fn
       esm2_batch_converter torch_tensor batch).1
    = [LabelCollate.TorchTensor values LabelCollate.torch_long;
       LabelCollate.Esm2BatchConverter inp_seqs] /\
    length values = length batch /\ length inp_seqs = length batch /\
    (forall (b : nat) (it : Seq * Label),
        batch !! b = Some it ->
        values !! b = Some it.2 /\ inp_seqs !! b = Some (""%string, it.1)) /\
    (LabelCollate.RemoteHomologyLightning_collate_fn
       esm2_batch_converter torch_tensor batch).2
    = ((esm2_batch_converter inp_seqs).2,
       torch_tensor values LabelCollate.torch_long).
Proof. apply label_collate_aligned. Qed.

(** X18. [StabilityLightning.collate_fn] and
    [FluoroscenceLightning.collate_fn] produce the same calls and the same
    result on every batch: a [float32] tensor of the scores in batch order
    and the tokens of the sequences in the same order. *)
Theorem regression_collate_fns_aligned {Seq Label Tokens LabelsT : Type}
    (esm2_batch_converter :
       list (string * Seq) -> list string * list string * Tokens)
    (torch_tensor : list Label -> LabelCollate.dtype -> LabelsT)
    (batch : list (Seq * Label)) :
  LabelCollate.FluoroscenceLightning_collate_fn
    esm2_batch_converter torch_tensor batch
  = LabelCollate.StabilityLightning_collate_fn
      esm2_batch_converter torch_tensor batch /\
  exists (values : list Label) (inp_seqs : list (string * Seq)),
    (LabelCollate.StabilityLightning_collate_fn
       esm2_batch_converter torch_tensor batch).1
    = [LabelCollate.TorchTensor values LabelCollate.torch_float32;
       LabelCollate.Esm2BatchConverter inp_seqs] /\
    length values = length batch /\ length inp_seqs = length batch /\
    (forall (b : nat) (it : Seq * Label),
        batch !! b = Some it ->
        values !! b = Some it.2 /\ inp_seqs !! b = Some (""%string, it.1)) /\
    (LabelCollate.StabilityLightning_collate_fn
       esm2_batch_converter torch_tensor batch).2
    = ((esm2_batch_converter inp_seqs).2,
       torch_tensor values LabelCollate.torch_float32).
Proof. split; [done|]. apply label_collate_aligned. Qed.

(** ** The filtered store under the sampler *)

(** A store filtered to [min_seq_len, max_seq_len] and then handed to the
    sampler: a record is batched unless its length is exactly
    [max_seq_len] and [bin_size] divides [max_seq_len - min_seq_len]. *)
Lemma filtered_store_batched {Coords} (d : list (item Coords))
    (args : Namespace) (max_len : Z) (g : Random.rng) :
  max_seq_len args = Some max_len ->
  0 < sampler_bin_size args -> 0 < batch_size args ->
  exists s g',
    ESMBatchSampler.init
      (ESMDataset.data
         (ESMDataset.filter_data {| ESMDataset.data := d |} max_len
            (min_seq_len args))) args g = Ok (s, g') /\
    NoDup (concat (ESMBatchSampler.batches s)) /\
    forall (i : nat) (it : item Coords),
      ESMDataset.data
        (ESMDataset.filter_data {| ESMDataset.data := d |} max_len
           (min_seq_len args)) !! i = Some it ->
      (i ∈ concat (ESMBatchSampler.batches s) <->
       Z.of_nat (seq_len it) < max_len \/
       (max_len - min_seq_len args) mod sampler_bin_size args <> 0).
Proof.
  intros Hmax Hbin Hbatch.
  set (store := ESMDataset.data _).
  destruct (sampler_init_ok store args max_len g Hmax Hbin Hbatch)
    as (bins & g1 & all_batches & batches & g2 & Hc & Hch & Hperm & Hinit).
  destruct (create_bins_binned_iff store (min_seq_len args) max_len
              (sampler_bin_size args) g Hbin)
    as (bins' & g1' & Hc' & Hnd & Hiff).
  rewrite Hc in Hc'. injection Hc' as <- <-.
  destruct (chunks_spec (ESMBatchSampler.flatten bins) (batch_size args)
              Hbatch) as (all_batches' & Hch' & Hcat & _).
  rewrite Hch in Hch'. injection Hch' as <-.
  eexists _, g2. split; [exact Hinit|]. simpl.
  assert (Hflat : concat batches ≡ₚ ESMBatchSampler.flatten bins).
  { rewrite <- Hcat. by apply concat_Permutation. }
  split; [by rewrite Hflat|].
  intros i it Hit. rewrite Hflat, Hiff.
  assert (Hw : min_seq_len args <= Z.of_nat (seq_len it) <= max_len).
  { apply list_elem_of_lookup_2 in Hit. unfold store in Hit.
    rewrite filter_data_filter in Hit.
    apply list_elem_of_In, filter_In in Hit as [_ Hk].
    by apply keeps_window. }
  set (len := Z.of_nat (seq_len it)) in *.
  set (m := min_seq_len args) in *. set (w := sampler_bin_size args) in *.
  split.
  - intros (it' & j & Hit' & Hj & Hlo & Hhi).
    rewrite Hit in Hit'. injection Hit' as <-. fold len in Hlo, Hhi.
    destruct (decide (len < max_len)) as [?|Hge]; [by left|]. right.
    intros Hmod. apply Z.mod_divide in Hmod as [q Hq]; [|lia].
    assert (Heq : len = max_len) by lia.
    clearbody len m w. subst len.
    assert (Z.of_nat j < q) by nia.
    assert (q < Z.of_nat j + 1) by nia. lia.
  - intros Hcase. exists it.
    assert (Hdiv : forall a, 0 <= a ->
               0 <= a / w /\ a / w * w <= a < a / w * w + w).
    { intros a Ha. split; [apply Z.div_pos; lia|].
      pose proof (Z.mul_div_le a w Hbin).
      pose proof (Z.mul_succ_div_gt a w Hbin). lia. }
    destruct (decide (len < max_len)) as [Hlt|Hge].
    + destruct (Hdiv (len - m)) as (Hq0 & Hq1 & Hq2); [lia|].
      exists (Z.to_nat ((len - m) / w)). rewrite Z2Nat.id by done.
      split; [done|]. fold len. lia.
    + destruct Hcase as [?|Hmod]; [lia|].
      assert (len = max_len) as Heq by lia.
      destruct (Hdiv (max_len - m)) as (Hq0 & Hq1 & Hq2); [lia|].
      exists (Z.to_nat ((max_len - m) / w)). rewrite Z2Nat.id by done.
      split; [done|]. fold len.
      assert ((max_len - m) / w * w <> max_len - m).
      { intros Hex. apply Hmod. rewrite <- Hex. apply Z.mod_mul. lia. }
      lia.
Qed.

(** ** ESMDataLightning.setup *)

Lemma new_dataset_loaded {Coords} (split : string)
    (self : ESMDataLightning.t Coords)
    (fs : gmap string (list (item Coords))) (g : Random.rng)
    (d : list (item Coords)) :
  dataset_name (ESMDataLightning.args self) ∈ ["cath"; "pdb"]%string ->
  fs !! archive_path (ESMDataLightning.args self) split = Some d ->
  ESMDataLightning.new_dataset split self fs g
  = ([IO.OpenRead (archive_path (ESMDataLightning.args self) split)], self,
     Ok (loaded_store (ESMDataLightning.args self) d, g)).
Proof.
  intros Hn Hfs. unfold ESMDataLightning.new_dataset.
  by rewrite (ESMDataset_init_loaded split _ fs d Hn Hfs).
Qed.

Lemma new_dataset_missing {Coords} (split : string)
    (self : ESMDataLightning.t Coords)
    (fs : gmap string (list (item Coords))) (g : Random.rng) :
  dataset_name (ESMDataLightning.args self) ∈ ["cath"; "pdb"]%string ->
  fs !! archive_path (ESMDataLightning.args self) split = None ->
  ESMDataLightning.new_dataset split self fs g
  = ([IO.OpenRead (archive_path (ESMDataLightning.args self) split)], self,
     Raise (FileNotFoundError
              (archive_path (ESMDataLightning.args self) split))).
Proof.
  intros Hn Hfs. unfold ESMDataLightning.new_dataset.
  unfold ESMDataset.init. io_unfold.
  rewrite bool_decide_true by done.
  unfold archive_path in Hfs. by rewrite Hfs.
Qed.

(** X19. [setup("fit")] with the sampler enabled, a valid configuration
    and the [train] and [val] archives in place: it opens the [train]
    archive, then the [val] archive, and no other file; it stores the two
    filtered archives and a sampler over each of them, and leaves the
    [test] attributes as they were.  A record of a filtered store is in one
    of the sampler's batches unless its length is exactly [max_seq_len]
    and [bin_size] divides [max_seq_len - min_seq_len]. *)
Theorem ESMDataLightning_setup_fit_with_sampler {Coords}
    (self : ESMDataLightning.t Coords)
    (fs : gmap string (list (item Coords))) (g : Random.rng)
    (max_len : Z) (d_train d_val : list (item Coords)) :
  dataset_name (ESMDataLightning.args self) ∈ ["cath"; "pdb"]%string ->
  max_seq_len (ESMDataLightning.args self) = Some max_len ->
  0 < sampler_bin_size (ESMDataLightning.args self) ->
  0 < batch_size (ESMDataLightning.args self) ->
  ESMDataLightning.sampler_enabled self = true ->
  fs !! archive_path (ESMDataLightning.args self) "train" = Some d_train ->
  fs !! archive_path (ESMDataLightning.args self) "val" = Some d_val ->
  exists self' s1 s2 g',
    ESMDataLightning.setup "fit" self fs g
    = ([IO.OpenRead (archive_path (ESMDataLightning.args self) "train");
        IO.OpenRead (archive_path (ESMDataLightning.args self) "val")],
       self', Ok (tt, g')) /\
    ESMDataLightning.train_dataset self'
    = ESMDataLightning.Val (loaded_store (ESMDataLightning.args self) d_train) /\
    ESMDataLightning.val_dataset self'
    = ESMDataLightning.Val (loaded_store (ESMDataLightning.args self) d_val) /\
    ESMDataLightning.train_sampler self' = ESMDataLightning.Val s1 /\
    ESMDataLightning.val_sampler self' = ESMDataLightning.Val s2 /\
    ESMDataLightning.test_dataset self' = ESMDataLightning.test_dataset self /\
    ESMDataLightning.test_sampler self' = ESMDataLightning.test_sampler self /\
    (forall (i : nat) (it : item Coords),
        ESMDataset.data (loaded_store (ESMDataLightning.args self) d_train)
        !! i = Some it ->
        (i ∈ concat (ESMBatchSampler.batches s1) <->
         Z.of_nat (seq_len it) < max_len \/
         (max_len - min_seq_len (ESMDataLightning.args self))
           mod sampler_bin_size (ESMDataLightning.args self) <> 0)) /\
    (forall (i : nat) (it : item Coords),
        ESMDataset.data (loaded_store (ESMDataLightning.args self) d_val)
        !! i = Some it ->
        (i ∈ concat (ESMBatchSampler.batches s2) <->
         Z.of_nat (seq_len it) < max_len \/
         (max_len - min_seq_len (ESMDataLightning.args self))
           mod sampler_bin_size (ESMDataLightning.args self) <> 0)).
Proof.
  intros Hn Hmax Hbin Hbatch Hen Htrain Hval.
  destruct (filtered_store_batched d_train (ESMDataLightning.args self)
              max_len g Hmax Hbin Hbatch) as (s1 & g1 & Hs1 & _ & Hb1).
  destruct (filtered_store_batched d_val (ESMDataLightning.args self)
              max_len g1 Hmax Hbin Hbatch) as (s2 & g2 & Hs2 & _ & Hb2).
  assert (Hstore : forall d : list (item Coords),
             loaded_store (ESMDataLightning.args self) d
             = ESMDataset.filter_data {| ESMDataset.data := d |} max_len
                 (min_seq_len (ESMDataLightning.args self))).
  { intros d. unfold loaded_store. by rewrite Hmax. }
  rewrite !Hstore.
  eexists _, s1, s2, g2. split.
  - unfold ESMDataLightning.setup. simpl.
    unfold ESMDataLightning.bind at 1.
    rewrite (new_dataset_loaded "train" self fs g d_train Hn Htrain).
    unfold ESMDataLightning.bind at 1. unfold ESMDataLightning.assign at 1.
    unfold ESMDataLightning.bind at 1.
    rewrite (new_dataset_loaded "val" _ fs g d_val); [|done|done].
    unfold ESMDataLightning.bind at 1. unfold ESMDataLightning.assign at 1.
    simpl. rewrite Hen.
    unfold ESMDataLightning.bind, ESMDataLightning.new_sampler,
      ESMDataLightning.assign. simpl.
    rewrite !Hstore, Hs1, Hs2. reflexivity.
  - simpl. do 6 (split; [done|]). split; [exact Hb1|exact Hb2].
Qed.

(** The instance of X19 on the example archives: the generator moves on,
    the [test] attributes stay unassigned, and of the [train] records kept
    by the filter (lengths 10, 12, 25, 26 and 40) the one of length 40, at
    position 4, is in no batch, 15 dividing 40 - 10. *)
Lemma ESMDataLightning_setup_fit_with_sampler_witness :
  exists self' s1 g',
    ESMDataLightning.setup "fit" (fresh_module example_args true)
      example_archives [2; 7; 1]%nat
    = ([IO.OpenRead "data/cath/train.pkl"; IO.OpenRead "data/cath/val.pkl"],
       self', Ok (tt, g')) /\
    ESMDataLightning.train_sampler self' = ESMDataLightning.Val s1 /\
    ESMDataLightning.test_dataset self' = ESMDataLightning.Unset /\
    4%nat ∉ concat (ESMBatchSampler.batches s1).
Proof.
  destruct (ESMDataLightning_setup_fit_with_sampler
              (fresh_module example_args true) example_archives
              [2; 7; 1]%nat 40
              (map record_of_length [5; 10; 12; 25; 26; 40; 41]%nat)
              (map record_of_length [11; 39]%nat))
    as (self' & s1 & s2 & g' & Hsetup & _ & _ & Hs1 & _ & Htest & _ & Hb1 & _).
  - apply (bool_decide_unpack _). reflexivity.
  - reflexivity.
  - reflexivity.
  - reflexivity.
  - reflexivity.
  - reflexivity.
  - reflexivity.
  - exists self', s1, g'. split; [exact Hsetup|]. split; [exact Hs1|].
    split; [exact Htest|].
    intros Hin. apply (Hb1 4%nat (record_of_length 40) eq_refl) in Hin.
    destruct Hin as [Hin|Hin]; [by vm_compute in Hin|by apply Hin].
Defined.

(** X20. [setup("fit")] with the sampler disabled, a valid dataset name
    and the [train] and [val] archives in place: it opens those two
    archives in that order, stores the two archives as the datasets keep
    them, sets the three samplers, the [test] one included, to [None],
    leaves the [test] dataset as it was and does not touch the generator;
    [bin_size] and [batch_size] are not looked at. *)
Theorem ESMDataLightning_setup_fit_without_sampler {Coords}
    (self : ESMDataLightning.t Coords)
    (fs : gmap string (list (item Coords))) (g : Random.rng)
    (d_train d_val : list (item Coords)) :
  dataset_name (ESMDataLightning.args self) ∈ ["cath"; "pdb"]%string ->
  ESMDataLightning.sampler_enabled self = false ->
  fs !! archive_path (ESMDataLightning.args self) "train" = Some d_train ->
  fs !! archive_path (ESMDataLightning.args self) "val" = Some d_val ->
  exists self',
    ESMDataLightning.setup "fit" self fs g
    = ([IO.OpenRead (archive_path (ESMDataLightning.args self) "train");
        IO.OpenRead (archive_path (ESMDataLightning.args self) "val")],
       self', Ok (tt, g)) /\
    ESMDataLightning.train_dataset self'
    = ESMDataLightning.Val (loaded_store (ESMDataLightning.args self) d_train) /\
    ESMDataLightning.val_dataset self'
    = ESMDataLightning.Val (loaded_store (ESMDataLightning.args self) d_val) /\
    ESMDataLightning.test_dataset self' = ESMDataLightning.test_dataset self /\
    ESMDataLightning.train_sampler self' = ESMDataLightning.PyNone /\
    ESMDataLightning.val_sampler self' = ESMDataLightning.PyNone /\
    ESMDataLightning.test_sampler self' = ESMDataLightning.PyNone.
Proof.
  intros Hn Hen Htrain Hval. eexists. split.
  - unfold ESMDataLightning.setup. simpl.
    unfold ESMDataLightning.bind at 1.
    rewrite (new_dataset_loaded "train" self fs g d_train Hn Htrain).
    unfold ESMDataLightning.bind at 1. unfold ESMDataLightning.assign at 1.
    unfold ESMDataLightning.bind at 1.
    rewrite (new_dataset_loaded "val" _ fs g d_val); [|done|done].
    unfold ESMDataLightning.bind at 1. unfold ESMDataLightning.assign at 1.
    simpl. rewrite Hen. reflexivity.
  - simpl. by repeat split.
Qed.

(** The instance of X20 on the example archives with [bin_size] and
    [batch_size] both zero. *)
Lemma ESMDataLightning_setup_fit_without_sampler_witness :
  exists self',
    ESMDataLightning.setup "fit"
      (fresh_module
         {| data_dir := "data"; dataset_name := "cath";
            max_seq_len := Some 40; min_seq_len := 10;
            batch_size := 0; sampler_bin_size := 0 |} false)
      example_archives [2; 7; 1]%nat
    = ([IO.OpenRead "data/cath/train.pkl"; IO.OpenRead "data/cath/val.pkl"],
       self', Ok (tt, [2; 7; 1]%nat)) /\
    ESMDataLightning.test_sampler self' = ESMDataLightning.PyNone.
Proof.
  destruct (ESMDataLightning_setup_fit_without_sampler
              (fresh_module
                 {| data_dir := "data"; dataset_name := "cath";
                    max_seq_len := Some 40; min_seq_len := 10;
                    batch_size := 0; sampler_bin_size := 0 |} false)
              example_archives [2; 7; 1]%nat
              (map record_of_length [5; 10; 12; 25; 26; 40; 41]%nat)
              (map record_of_length [11; 39]%nat))
    as (self' & Hsetup & _ & _ & _ & _ & _ & Hts).
  - apply (bool_decide_unpack _). reflexivity.
  - reflexivity.
  - reflexivity.
  - reflexivity.
  - exists self'. split; [exact Hsetup|exact Hts].
Defined.

(** X21. [setup] with any stage other than [fit], a valid dataset name and
    the [test] archive in place opens the [test] archive and no other
    file, stores it as the [test] dataset and leaves the [train] and [val]
    datasets as they were, whatever becomes of the sampler. *)
Theorem ESMDataLightning_setup_other_stage_loads_test {Coords}
    (stage : string) (self : ESMDataLightning.t Coords)
    (fs : gmap string (list (item Coords))) (g : Random.rng)
    (d_test : list (item Coords)) :
  stage <> "fit"%string ->
  dataset_name (ESMDataLightning.args self) ∈ ["cath"; "pdb"]%string ->
  fs !! archive_path (ESMDataLightning.args self) "test" = Some d_test ->
  (ESMDataLightning.setup stage self fs g).1.1
  = [IO.OpenRead (archive_path (ESMDataLightning.args self) "test")] /\
  ESMDataLightning.test_dataset (ESMDataLightning.setup stage self fs g).1.2
  = ESMDataLightning.Val (loaded_store (ESMDataLightning.args self) d_test) /\
  ESMDataLightning.train_dataset (ESMDataLightning.setup stage self fs g).1.2
  = ESMDataLightning.train_dataset self /\
  ESMDataLightning.val_dataset (ESMDataLightning.setup stage self fs g).1.2
  = ESMDataLightning.val_dataset self.
Proof.
  intros Hstage Hn Htest.
  assert (Hout : exists self' r,
             ESMDataLightning.setup stage self fs g
             = ([IO.OpenRead
                   (archive_path (ESMDataLightning.args self) "test")],
                self', r) /\
             ESMDataLightning.test_dataset self'
             = ESMDataLightning.Val
                 (loaded_store (ESMDataLightning.args self) d_test) /\
             ESMDataLightning.train_dataset self'
             = ESMDataLightning.train_dataset self /\
             ESMDataLightning.val_dataset self'
             = ESMDataLightning.val_dataset self).
  { unfold ESMDataLightning.setup.
    apply String.eqb_neq in Hstage. rewrite Hstage.
    unfold ESMDataLightning.bind at 1.
    rewrite (new_dataset_loaded "test" self fs g d_test Hn Htest).
    unfold ESMDataLightning.bind at 1. unfold ESMDataLightning.assign at 1.
    simpl. destruct (ESMDataLightning.sampler_enabled self).
    - unfold ESMDataLightning.bind, ESMDataLightning.new_sampler,
        ESMDataLightning.assign. simpl.
      destruct (ESMBatchSampler.init _ _ _) as [[s g']|e];
        by eexists _, _.
    - by eexists _, _. }
  destruct Hout as (self' & r & -> & H1 & H2 & H3). by simpl.
Qed.

(** The instance of X21 on the stage [validate]. *)
Lemma ESMDataLightning_setup_other_stage_loads_test_witness :
  (ESMDataLightning.setup "validate" (fresh_module example_args true)
     example_archives [2; 7; 1]%nat).1.1
  = [IO.OpenRead "data/cath/test.pkl"] /\
  ESMDataLightning.train_dataset
    (ESMDataLightning.setup "validate" (fresh_module example_args true)
       example_archives [2; 7; 1]%nat).1.2
  = ESMDataLightning.Unset.
Proof.
  destruct (ESMDataLightning_setup_other_stage_loads_test "validate"
              (fresh_module example_args true) example_archives
              [2; 7; 1]%nat (map record_of_length [30]%nat))
    as (Htr & _ & Htrain & _).
  - discriminate.
  - apply (bool_decide_unpack _). reflexivity.
  - reflexivity.
  - split; [exact Htr|exact Htrain].
Defined.

(** X22. [setup("fit")] with the [train] archive in place and the [val]
    archive missing ends in [FileNotFoundError] for the [val] archive
    after both files were tried; the [train] dataset has been assigned by
    then and every other attribute is as before. *)
Theorem ESMDataLightning_setup_fit_missing_val {Coords}
    (self : ESMDataLightning.t Coords)
    (fs : gmap string (list (item Coords))) (g : Random.rng)
    (d_train : list (item Coords)) :
  dataset_name (ESMDataLightning.args self) ∈ ["cath"; "pdb"]%string ->
  fs !! archive_path (ESMDataLightning.args self) "train" = Some d_train ->
  fs !! archive_path (ESMDataLightning.args self) "val" = None ->
  ESMDataLightning.setup "fit" self fs g
  = ([IO.OpenRead (archive_path (ESMDataLightning.args self) "train");
      IO.OpenRead (archive_path (ESMDataLightning.args self) "val")],
     ESMDataLightning.set_train_dataset
       (ESMDataLightning.Val
          (loaded_store (ESMDataLightning.args self) d_train)) self,
     Raise (FileNotFoundError
              (archive_path (ESMDataLightning.args self) "val"))).
Proof.
  intros Hn Htrain Hval. unfold ESMDataLightning.setup. simpl.
  unfold ESMDataLightning.bind at 1.
  rewrite (new_dataset_loaded "train" self fs g d_train Hn Htrain).
  unfold ESMDataLightning.bind at 1. unfold ESMDataLightning.assign at 1.
  unfold ESMDataLightning.bind at 1.
  by rewrite (new_dataset_missing "val" _ fs g).
Qed.

(** The instance of X22 on a file system with the [train] archive only. *)
Lemma ESMDataLightning_setup_fit_missing_val_witness :
  ESMDataLightning.setup "fit" (fresh_module example_args true)
    (<["data/cath/train.pkl"%string := [record_of_length 12]]> ∅)
    [2; 7; 1]%nat
  = ([IO.OpenRead "data/cath/train.pkl"; IO.OpenRead "data/cath/val.pkl"],
     ESMDataLightning.set_train_dataset
       (ESMDataLightning.Val (loaded_store example_args [record_of_length 12]))
       (fresh_module example_args true),
     Raise (FileNotFoundError "data/cath/val.pkl")).
Proof.
  apply (ESMDataLightning_setup_fit_missing_val
           (fresh_module example_args true)
           (<["data/cath/train.pkl"%string := [record_of_length 12]]> ∅)
           [2; 7; 1]%nat [record_of_length 12]).
  - apply (bool_decide_unpack _). reflexivity.
  - reflexivity.
  - reflexivity.
Defined.

(** ** ESMDataLightning.teardown *)

(** X23. [teardown("fit")] sets the [train] and [val] datasets to [None]
    and [teardown("test")] the [test] dataset; neither touches any sampler,
    so the samplers built by [setup] outlive their datasets; any other
    stage changes nothing and prints [Invalid stage: <stage>]. *)
Theorem ESMDataLightning_teardown_keeps_samplers {Coords}
    (stage : string) (self : ESMDataLightning.t Coords) :
  ESMDataLightning.train_sampler (ESMDataLightning.teardown stage self).1
  = ESMDataLightning.train_sampler self /\
  ESMDataLightning.val_sampler (ESMDataLightning.teardown stage self).1
  = ESMDataLightning.val_sampler self /\
  ESMDataLightning.test_sampler (ESMDataLightning.teardown stage self).1
  = ESMDataLightning.test_sampler self /\
  (stage = "fit"%string ->
   ESMDataLightning.teardown stage self
   = (ESMDataLightning.set_val_dataset ESMDataLightning.PyNone
        (ESMDataLightning.set_train_dataset ESMDataLightning.PyNone self),
      [])) /\
  (stage = "test"%string ->
   ESMDataLightning.teardown stage self
   = (ESMDataLightning.set_test_dataset ESMDataLightning.PyNone self, [])) /\
  (stage <> "fit"%string -> stage <> "test"%string ->
   ESMDataLightning.teardown stage self
   = (self, ["Invalid stage: " +:+ stage])).
Proof.
  unfold ESMDataLightning.teardown.
  destruct (String.eqb_spec stage "fit") as [->|Hfit].
  { by repeat split. }
  destruct (String.eqb_spec stage "test") as [->|Htest].
  { by repeat split. }
  by repeat split.
Qed.

(** The instance of X23 on the stage [predict]. *)
Lemma ESMDataLightning_teardown_keeps_samplers_witness :
  ESMDataLightning.teardown "predict" (fresh_module example_args true)
  = (fresh_module example_args true, ["Invalid stage: predict"%string]).
Proof.
  apply (proj2 (proj2 (proj2 (proj2 (proj2
           (ESMDataLightning_teardown_keeps_samplers "predict"
              (fresh_module example_args true)))))));
    discriminate.
Defined.

(** ** RemoteHomologyLightning.setup *)

Lemma homology_new_dataset_loaded (split : string)
    (self : RemoteHomologyLightning.t)
    (fs : gmap string (list (gmap string pyval)))
    (d : list (gmap string pyval)) :
  split ∈ RemoteHomologyDataset.splits ->
  fs !! homology_path (RemoteHomologyLightning.data_dir self) split = Some d ->
  RemoteHomologyLightning.new_dataset split self fs
  = ([IO.OpenRead
        (homology_path (RemoteHomologyLightning.data_dir self) split)],
     self,
     if bool_decide (RemoteHomologyLightning.label_to_predict self
                     ∈ RemoteHomologyDataset.labels)
     then Ok {| RemoteHomologyDataset.data := d;
                RemoteHomologyDataset.label_to_predict :=
                  RemoteHomologyLightning.label_to_predict self +:+ "_label" |}
     else Raise (AssertionError
                   ("Invalid label: "
                    +:+ RemoteHomologyLightning.label_to_predict self
                    +:+ " to predict"))).
Proof.
  intros Hs Hfs. unfold RemoteHomologyLightning.new_dataset.
  by rewrite (RemoteHomologyDataset_init_loaded split _ _ fs d Hs Hfs).
Qed.

(** X24. [RemoteHomologyLightning.setup("test")] with a valid label and the
    three hold-out archives in place opens the family, superfamily and fold
    hold-out archives in that order and nothing else, stores each as its
    dataset with the label field [<label>_label], and leaves the [train]
    and [val] datasets as they were. *)
Theorem RemoteHomologyLightning_setup_test (self : RemoteHomologyLightning.t)
    (fs : gmap string (list (gmap string pyval)))
    (d_fa d_su d_fo : list (gmap string pyval)) :
  RemoteHomologyLightning.label_to_predict self
  ∈ RemoteHomologyDataset.labels ->
  fs !! homology_path (RemoteHomologyLightning.data_dir self)
          "test_family_holdout" = Some d_fa ->
  fs !! homology_path (RemoteHomologyLightning.data_dir self)
          "test_superfamily_holdout" = Some d_su ->
  fs !! homology_path (RemoteHomologyLightning.data_dir self)
          "test_fold_holdout" = Some d_fo ->
  exists self',
    RemoteHomologyLightning.setup "test" self fs
    = ([IO.OpenRead
          (homology_path (RemoteHomologyLightning.data_dir self)
             "test_family_holdout");
        IO.OpenRead
          (homology_path (RemoteHomologyLightning.data_dir self)
             "test_superfamily_holdout");
        IO.OpenRead
          (homology_path (RemoteHomologyLightning.data_dir self)
             "test_fold_holdout")],
       self', Ok tt) /\
    RemoteHomologyLightning.test_dataset_family_holdout self'
    = ESMDataLightning.Val
        {| RemoteHomologyDataset.data := d_fa;
           RemoteHomologyDataset.label_to_predict :=
             RemoteHomologyLightning.label_to_predict self +:+ "_label" |} /\
    RemoteHomologyLightning.test_dataset_superfamily_holdout self'
    = ESMDataLightning.Val
        {| RemoteHomologyDataset.data := d_su;
           RemoteHomologyDataset.label_to_predict :=
             RemoteHomologyLightning.label_to_predict self +:+ "_label" |} /\
    RemoteHomologyLightning.test_dataset_fold_holdout self'
    = ESMDataLightning.Val
        {| RemoteHomologyDataset.data := d_fo;
           RemoteHomologyDataset.label_to_predict :=
             RemoteHomologyLightning.label_to_predict self +:+ "_label" |} /\
    RemoteHomologyLightning.train_dataset self'
    = RemoteHomologyLightning.train_dataset self /\
    RemoteHomologyLightning.val_dataset self'
    = RemoteHomologyLightning.val_dataset self.
Proof.
  intros Hl Hfa Hsu Hfo.
  assert (Hs : forall s, s ∈ ["test_family_holdout";
                               "test_superfamily_holdout";
                               "test_fold_holdout"]%string ->
                 s ∈ RemoteHomologyDataset.splits).
  { intros s Hin. unfold RemoteHomologyDataset.splits.
    do 2 right. exact Hin. }
  eexists. split.
  - unfold RemoteHomologyLightning.setup. simpl.
    unfold RemoteHomologyLightning.bind at 1.
    rewrite (homology_new_dataset_loaded _ self fs d_fa);
      [|apply Hs; left|done].
    rewrite bool_decide_true by done.
    unfold RemoteHomologyLightning.bind at 1.
    unfold RemoteHomologyLightning.assign at 1.
    unfold RemoteHomologyLightning.bind at 1.
    rewrite (homology_new_dataset_loaded _ _ fs d_su);
      [|apply Hs; right; left|done]. simpl.
    rewrite bool_decide_true by done.
    unfold RemoteHomologyLightning.bind at 1.
    unfold RemoteHomologyLightning.assign at 1.
    unfold RemoteHomologyLightning.bind at 1.
    rewrite (homology_new_dataset_loaded _ _ fs d_fo);
      [|apply Hs; right; right; left|done]. simpl.
    rewrite bool_decide_true by done.
    reflexivity.
  - simpl. by repeat split.
Qed.

(** The instance of X24 on the example hold-out archives. *)
Lemma RemoteHomologyLightning_setup_test_witness :
  exists self',
    RemoteHomologyLightning.setup "test"
      (fresh_homology_module "fold" "data") holdout_archives
    = ([IO.OpenRead "data/remote_homology/test_family_holdout.pkl";
        IO.OpenRead "data/remote_homology/test_superfamily_holdout.pkl";
        IO.OpenRead "data/remote_homology/test_fold_holdout.pkl"],
       self', Ok tt) /\
    RemoteHomologyLightning.train_dataset self' = ESMDataLightning.Unset.
Proof.
  destruct (RemoteHomologyLightning_setup_test
              (fresh_homology_module "fold" "data") holdout_archives
              [homology_record] [] [homology_record; homology_record])
    as (self' & Hsetup & _ & _ & _ & Htrain & _).
  - apply (bool_decide_unpack _). reflexivity.
  - reflexivity.
  - reflexivity.
  - reflexivity.
  - exists self'. split; [exact Hsetup|exact Htrain].
Defined.

(** X25. With a label that is not valid, [RemoteHomologyLightning.setup]
    stops at its first dataset: [setup("fit")] with the [train] archive in
    place opens that archive only, raises the invalid-label assertion and
    assigns nothing, the [val] archive never being opened. *)
Theorem RemoteHomologyLightning_setup_fit_invalid_label
    (self : RemoteHomologyLightning.t)
    (fs : gmap string (list (gmap string pyval)))
    (d_train : list (gmap string pyval)) :
  RemoteHomologyLightning.label_to_predict self
  ∉ RemoteHomologyDataset.labels ->
  fs !! homology_path (RemoteHomologyLightning.data_dir self) "train"
  = Some d_train ->
  RemoteHomologyLightning.setup "fit" self fs
  = ([IO.OpenRead
        (homology_path (RemoteHomologyLightning.data_dir self) "train")],
     self,
     Raise (AssertionError
              ("Invalid label: "
               +:+ RemoteHomologyLightning.label_to_predict self
               +:+ " to predict"))).
Proof.
  intros Hl Htrain. unfold RemoteHomologyLightning.setup. simpl.
  unfold RemoteHomologyLightning.bind at 1.
  rewrite (homology_new_dataset_loaded "train" self fs d_train);
    [|left|done].
  by rewrite bool_decide_false.
Qed.

(** The instance of X25 on the label [fol]. *)
Lemma RemoteHomologyLightning_setup_fit_invalid_label_witness :
  RemoteHomologyLightning.setup "fit" (fresh_homology_module "fol" "data")
    homology_archive
  = ([IO.OpenRead "data/remote_homology/train.pkl"],
     fresh_homology_module "fol" "data",
     Raise (AssertionError "Invalid label: fol to predict")).
Proof.
  apply (RemoteHomologyLightning_setup_fit_invalid_label
           (fresh_homology_module "fol" "data") homology_archive
           [homology_record]).
  - apply (bool_decide_unpack _). reflexivity.
  - reflexivity.
Defined.

(** X26. [RemoteHomologyLightning.setup] with a stage other than [fit] and
    [test] opens no file and leaves the module as it was, where
    [ESMDataLightning.setup] would load the [test] archive. *)
Theorem RemoteHomologyLightning_setup_other_stage_does_nothing
    (stage : string) (self : RemoteHomologyLightning.t)
    (fs : gmap string (list (gmap string pyval))) :
  stage <> "fit"%string -> stage <> "test"%string ->
  RemoteHomologyLightning.setup stage self fs = ([], self, Ok tt).
Proof.
  intros Hfit Htest. unfold RemoteHomologyLightning.setup.
  apply String.eqb_neq in Hfit. apply String.eqb_neq in Htest.
  by rewrite Hfit, Htest.
Qed.

(** The instance of X26 on the stage [validate]. *)
Lemma RemoteHomologyLightning_setup_other_stage_does_nothing_witness :
  RemoteHomologyLightning.setup "validate"
    (fresh_homology_module "fold" "data") holdout_archives
  = ([], fresh_homology_module "fold" "data", Ok tt).
Proof.
  apply (RemoteHomologyLightning_setup_other_stage_does_nothing "validate"
           (fresh_homology_module "fold" "data") holdout_archives);
    discriminate.
Defined.
